(** * The four-step appointment booking wizard

    A shallow embedding of the React components of the booking wizard
    ([multiStepBooking.tsx], [customerInfoForm.tsx], [servicesSelection.tsx],
    [meetingLocation.tsx], [dateTimeSelection.tsx]) as a state machine:
    the [useState] cells, the application context and the mounted view are
    fields of one record, every handler of the source is a function on that
    record, and what the handlers do to the outside (requests posted, toasts
    raised) is kept in a log.

    JavaScript strings are sequences of code units; here a [string] is such a
    sequence with one [ascii] per code unit, so [String.length] is the
    source's [.length]. *)

From Stdlib Require Import ZArith Ascii String DecimalString.
From stdpp Require Import base decidable option list strings gmap.

Local Open Scope string_scope.
Local Open Scope list_scope.

(** ** What the platform and the libraries supply

    The components call into the browser ([Intl.DateTimeFormat]), into zod
    (the e-mail grammar behind [z.string().email]) and into [@/lib/utils]
    ([getTimeZoneOffsetFromTimeZoneString], [parseFrappeErrorMsg]).  None of
    these is defined in the wizard; they are the operations of a class.
    [Intl.DateTimeFormat] throws a [RangeError] for a time zone it does not
    know and for a date that is not valid; the empty string is a time zone
    it does not know. *)

(** A JavaScript [Date]: milliseconds since the epoch. *)
Definition Date := Z.

Class Platform := {
  (** the rejection value a failed [bookAppointment] promise carries *)
  FrappeError : Type;
  (** [new Intl.DateTimeFormat("en-CA", {year, month, day}).format] *)
  formatDate : Date -> string;
  (** [getTimeZoneOffsetFromTimeZoneString] of [@/lib/utils] *)
  getTimeZoneOffsetFromTimeZoneString : string -> Z;
  (** [parseFrappeErrorMsg] of [@/lib/utils]; [None] stands for [undefined] *)
  parseFrappeErrorMsg : FrappeError -> option string;
  (** the test behind zod's [z.string().email(..)] *)
  zod_email : string -> bool;
  (** [new Intl.DateTimeFormat("en-US", {hour, minute, hour12, timeZone})
      .format(new Date(start_time))] for a time zone and the [start_time]
      of a slot; [None] when it throws.  Whether it throws does not depend
      on [hour12]. *)
  intlFormatTime : string -> string -> option string;
  intlFormatTime_empty_zone : forall start_time, intlFormatTime "" start_time = None
}.

(** ** JavaScript primitives used by the wizard *)

Module JS.

(** [String(n)] on an integral number. *)
Definition String_ (n : Z) : string := NilZero.string_of_int (Z.to_int n).

(** Truthiness of a string: only the empty string is falsy. *)
Definition truthy (s : string) : bool :=
  match s with EmptyString => false | String _ _ => true end.

(** [a || b] where [a] is a string or [undefined]. *)
Definition or_else (a : option string) (b : string) : string :=
  match a with
  | Some s => if truthy s then s else b
  | None => b
  end.

Definition quote : ascii := ascii_of_nat 34.
Definition backslash : ascii := ascii_of_nat 92.

Definition hex_digit (n : nat) : ascii :=
  if (n <? 10)%nat then ascii_of_nat (48 + n)%nat else ascii_of_nat (87 + n)%nat.

(** One code unit inside a JSON string literal (QuoteJSONString). *)
Definition escape_unit (c : ascii) : string :=
  let n := nat_of_ascii c in
  if (n =? 8)%nat then String backslash "b"
  else if (n =? 9)%nat then String backslash "t"
  else if (n =? 10)%nat then String backslash "n"
  else if (n =? 12)%nat then String backslash "f"
  else if (n =? 13)%nat then String backslash "r"
  else if (n =? 34)%nat then String backslash (String quote "")
  else if (n =? 92)%nat then String backslash (String backslash "")
  else if (n <? 32)%nat then
    String backslash
      ("u00" +:+ String (hex_digit (n / 16)%nat) (String (hex_digit (n mod 16)%nat) ""))
  else String c "".

Fixpoint escape (s : string) : string :=
  match s with
  | EmptyString => ""
  | String c r => escape_unit c +:+ escape r
  end.

(** [JSON.stringify] of a string. *)
Definition stringify_string (s : string) : string :=
  String quote (escape s) +:+ String quote "".

Fixpoint join (sep : string) (l : list string) : string :=
  match l with
  | [] => ""
  | [x] => x
  | x :: r => x +:+ sep +:+ join sep r
  end.

(** [JSON.stringify] of an array of strings. *)
Definition stringify_strings (l : list string) : string :=
  "[" +:+ join "," (stringify_string <$> l) +:+ "]".

(** [JSON.stringify] of an object whose properties are strings or
    [undefined]: a property that is [undefined] is left out. *)
Definition stringify_object (props : list (string * option string)) : string :=
  "{" +:+
  join "," (omap (fun '(k, v) =>
                    (fun s => stringify_string k +:+ ":" +:+ stringify_string s) <$> v)
                 props)
  +:+ "}".

End JS.

(** ** Data model *)

(** [z.infer<typeof customerInfoSchema>] *)
Record CustomerInfo := {
  name : string;
  phone : string;
  email : string
}.

(** [Service] and [ServicesSelectionData] of [servicesSelection.tsx] *)
Module Service.
Record t := {
  name : string;
  service_name : string;
  description : option string;
  duration : option Z;
  price : option Z
}.
End Service.

Record ServicesSelectionData := {
  selectedServices : list string
}.

(** [CustomerLocationData] and [MeetingLocationData] of [meetingLocation.tsx] *)
Module CustomerLocationData.
Record t := {
  location : string;
  street : string;
  building : string;
  apartment : option string
}.
End CustomerLocationData.

Inductive LocationType := our_location | customer_location.

Record MeetingLocationData := {
  locationType : LocationType;
  ourLocation : option string;
  customerLocation : option CustomerLocationData.t
}.

(** [DateTimeSelectionData] of [dateTimeSelection.tsx] *)
Record DateTimeSelectionData := {
  date : Date;
  startTime : string;
  endTime : string;
  timeZone : string
}.

(** [BookingFormData] of [multiStepBooking.tsx]: the draft. *)
Record BookingFormData := {
  customerInfo : option CustomerInfo;
  services : option ServicesSelectionData;
  location : option MeetingLocationData;
  dateTime : option DateTimeSelectionData
}.

(** A time slot as [get_time_slots] returns it. *)
Module Slot.
Record t := { start_time : string; end_time : string }.
End Slot.

(** [data.message] of [get_time_slots]. *)
Record SlotsMessage := {
  all_available_slots_for_data : list Slot.t;
  valid_start_date : option string;
  valid_end_date : option string;
  available_days : list string
}.

(** [data.message] of [book_time_slot], as [SuccessAlert] reads it. *)
Record BookingResult := {
  meeting_provider : string;
  meet_link : string;
  reschedule_url : string;
  google_calendar_event_url : string
}.

(** The object [submitBooking] hands to [bookAppointment]; [None] is a
    property whose value is [undefined]. *)
Module MeetingData.
Record t := {
  duration_id : string;
  date : string;
  user_timezone_offset : string;
  start_time : string;
  end_time : string;
  user_name : string;
  user_email : string;
  customer_phone : string;
  selected_services : string;
  location_type : LocationType;
  our_location : option string;
  customer_location : option string
}.
End MeetingData.

(** What [useAppContext] shares between the steps. *)
Module AppContext.
Record t := {
  timeZone : string;
  selectedDate : Date;
  selectedSlot : option Slot.t
}.
End AppContext.

#[global] Instance LocationType_eq_dec : EqDecision LocationType.
Proof. solve_decision. Defined.
#[global] Instance Slot_eq_dec : EqDecision Slot.t.
Proof. solve_decision. Defined.

(** ** Validation: zod schemas behind [zodResolver] *)

(** An issue of a failed parse: the path of the field and the message. *)
Definition ZodIssue : Type := string * string.

(** [formState.errors]: an object keyed by field path. *)
Abbreviation FieldErrors := (gmap string string).

(** [z.string().min(n, message)] at [path]: an issue when [value.length < n]. *)
Definition z_min (n : nat) (message path value : string) : list ZodIssue :=
  if (String.length value <? n)%nat then [(path, message)] else [].

(** [z.string().email(message)] at [path]. *)
Definition z_email `{Platform} (message path value : string) : list ZodIssue :=
  if zod_email value then [] else [(path, message)].

Definition customerInfoSchema `{Platform} (v : CustomerInfo) : list ZodIssue :=
  z_min 2 "Name must be at least 2 characters" "name" (name v) ++
  z_min 10 "Phone number must be at least 10 digits" "phone" (phone v) ++
  z_email "Please enter a valid email address" "email" (email v).

(** [apartment] is [z.string().optional()]: it raises no issue. *)
Definition customerLocationSchema (v : CustomerLocationData.t) : list ZodIssue :=
  z_min 3 "Location is required" "location" (CustomerLocationData.location v) ++
  z_min 3 "Street name is required" "street" (CustomerLocationData.street v) ++
  z_min 1 "Building name and number are required" "building"
        (CustomerLocationData.building v).

(** [zodResolver] turns the issues into [errors], keeping for each path the
    first issue raised on it. *)
Fixpoint parseErrorSchema (issues : list ZodIssue) (errors : FieldErrors) : FieldErrors :=
  match issues with
  | [] => errors
  | (path, message) :: rest =>
      parseErrorSchema rest
        (match errors !! path with
         | Some _ => errors
         | None => <[path := message]> errors
         end)
  end.

(** [form.handleSubmit(onValid)()]: run the resolver on the current values;
    with no issue the values go to [onValid], otherwise the errors are
    stored in the form state and [onValid] is not called. *)
Definition handleSubmit {V S : Type} (resolver : V -> list ZodIssue)
    (onValid : V -> S -> S) (setErrors : FieldErrors -> S -> S)
    (values : V) (s : S) : S :=
  match resolver values with
  | [] => onValid values s
  | issues => setErrors (parseErrorSchema issues ∅) s
  end.

(** ** The wizard's state *)

(** [currentStep : 1 | 2 | 3 | 4] *)
Inductive Step := Step1 | Step2 | Step3 | Step4.

#[global] Instance Step_eq_dec : EqDecision Step.
Proof. solve_decision. Defined.

Definition step_number (k : Step) : nat :=
  match k with Step1 => 1 | Step2 => 2 | Step3 => 3 | Step4 => 4 end.

(** The local state of the step component that is mounted: the values and
    errors of a [useForm], or the [useState] cells of the component.  A
    component that unmounts loses it. *)
Inductive View :=
  | CustomerInfoView (values : CustomerInfo) (errors : FieldErrors)
  | ServicesView (selected : list string)
  | LocationView (locType : LocationType) (values : CustomerLocationData.t)
                 (errors : FieldErrors)
  | DateTimeView.

(** The key under which [useFrappeGetCall] caches a [get_time_slots]
    request: the method is fixed, the parameters are [duration_id], [date]
    and [user_timezone_offset]. *)
Definition SlotsKey : Type := string * string * string.

Record Wizard := {
  (* props of [MultiStepBooking] *)
  durationId : string;
  isMobileView : bool;
  (* its [useState] cells; [timeFormat] only picks how a slot is printed *)
  currentStep : Step;
  formData : BookingFormData;
  displayMonth : Date;
  expanded : bool;
  bookingResponse : option BookingResult;
  appointmentScheduled : bool;
  (* [useAppContext()] *)
  context : AppContext.t;
  (* the step component on screen *)
  view : View;
  (* [useFrappePostCall(book_time_slot)]: its [loading] flag, the requests
     handed to [call] so far, and how many of them are still unanswered *)
  loading : bool;
  posted : list MeetingData.t;
  outstanding : nat;
  (* [useFrappeGetCall]: responses cached per request key *)
  slotsCache : gmap SlotsKey SlotsMessage;
  servicesResponse : option (list Service.t);
  (* messages handed to [toast] *)
  toasts : list string
}.

Definition emptyFormData : BookingFormData :=
  {| customerInfo := None; services := None; location := None; dateTime := None |}.

(** *** Field updates *)

Definition with_view (v : View) (s : Wizard) : Wizard :=
  {| durationId := durationId s; isMobileView := isMobileView s;
     currentStep := currentStep s; formData := formData s;
     displayMonth := displayMonth s; expanded := expanded s;
     bookingResponse := bookingResponse s;
     appointmentScheduled := appointmentScheduled s;
     context := context s; view := v; loading := loading s;
     posted := posted s; outstanding := outstanding s;
     slotsCache := slotsCache s; servicesResponse := servicesResponse s;
     toasts := toasts s |}.

Definition setFormData (fd : BookingFormData) (s : Wizard) : Wizard :=
  {| durationId := durationId s; isMobileView := isMobileView s;
     currentStep := currentStep s; formData := fd;
     displayMonth := displayMonth s; expanded := expanded s;
     bookingResponse := bookingResponse s;
     appointmentScheduled := appointmentScheduled s;
     context := context s; view := view s; loading := loading s;
     posted := posted s; outstanding := outstanding s;
     slotsCache := slotsCache s; servicesResponse := servicesResponse s;
     toasts := toasts s |}.

Definition with_context (c : AppContext.t) (s : Wizard) : Wizard :=
  {| durationId := durationId s; isMobileView := isMobileView s;
     currentStep := currentStep s; formData := formData s;
     displayMonth := displayMonth s; expanded := expanded s;
     bookingResponse := bookingResponse s;
     appointmentScheduled := appointmentScheduled s;
     context := c; view := view s; loading := loading s;
     posted := posted s; outstanding := outstanding s;
     slotsCache := slotsCache s; servicesResponse := servicesResponse s;
     toasts := toasts s |}.

Definition setDisplayMonth (d : Date) (s : Wizard) : Wizard :=
  {| durationId := durationId s; isMobileView := isMobileView s;
     currentStep := currentStep s; formData := formData s;
     displayMonth := d; expanded := expanded s;
     bookingResponse := bookingResponse s;
     appointmentScheduled := appointmentScheduled s;
     context := context s; view := view s; loading := loading s;
     posted := posted s; outstanding := outstanding s;
     slotsCache := slotsCache s; servicesResponse := servicesResponse s;
     toasts := toasts s |}.

Definition setExpanded (b : bool) (s : Wizard) : Wizard :=
  {| durationId := durationId s; isMobileView := isMobileView s;
     currentStep := currentStep s; formData := formData s;
     displayMonth := displayMonth s; expanded := b;
     bookingResponse := bookingResponse s;
     appointmentScheduled := appointmentScheduled s;
     context := context s; view := view s; loading := loading s;
     posted := posted s; outstanding := outstanding s;
     slotsCache := slotsCache s; servicesResponse := servicesResponse s;
     toasts := toasts s |}.

Definition setBookingResponse (r : option BookingResult) (s : Wizard) : Wizard :=
  {| durationId := durationId s; isMobileView := isMobileView s;
     currentStep := currentStep s; formData := formData s;
     displayMonth := displayMonth s; expanded := expanded s;
     bookingResponse := r;
     appointmentScheduled := appointmentScheduled s;
     context := context s; view := view s; loading := loading s;
     posted := posted s; outstanding := outstanding s;
     slotsCache := slotsCache s; servicesResponse := servicesResponse s;
     toasts := toasts s |}.

Definition setAppointmentScheduled (b : bool) (s : Wizard) : Wizard :=
  {| durationId := durationId s; isMobileView := isMobileView s;
     currentStep := currentStep s; formData := formData s;
     displayMonth := displayMonth s; expanded := expanded s;
     bookingResponse := bookingResponse s;
     appointmentScheduled := b;
     context := context s; view := view s; loading := loading s;
     posted := posted s; outstanding := outstanding s;
     slotsCache := slotsCache s; servicesResponse := servicesResponse s;
     toasts := toasts s |}.

(** [toast(message, ..)] *)
Definition toast (message : string) (s : Wizard) : Wizard :=
  {| durationId := durationId s; isMobileView := isMobileView s;
     currentStep := currentStep s; formData := formData s;
     displayMonth := displayMonth s; expanded := expanded s;
     bookingResponse := bookingResponse s;
     appointmentScheduled := appointmentScheduled s;
     context := context s; view := view s; loading := loading s;
     posted := posted s; outstanding := outstanding s;
     slotsCache := slotsCache s; servicesResponse := servicesResponse s;
     toasts := toasts s ++ [message] |}.

(** The [call] of [useFrappePostCall]: it raises [loading] and sends the
    request; the promise settles later. *)
Definition bookAppointment (m : MeetingData.t) (s : Wizard) : Wizard :=
  {| durationId := durationId s; isMobileView := isMobileView s;
     currentStep := currentStep s; formData := formData s;
     displayMonth := displayMonth s; expanded := expanded s;
     bookingResponse := bookingResponse s;
     appointmentScheduled := appointmentScheduled s;
     context := context s; view := view s; loading := true;
     posted := posted s ++ [m]; outstanding := S (outstanding s);
     slotsCache := slotsCache s; servicesResponse := servicesResponse s;
     toasts := toasts s |}.

(** A promise of [bookAppointment] settles: the hook lowers [loading]. *)
Definition settle (s : Wizard) : Wizard :=
  {| durationId := durationId s; isMobileView := isMobileView s;
     currentStep := currentStep s; formData := formData s;
     displayMonth := displayMonth s; expanded := expanded s;
     bookingResponse := bookingResponse s;
     appointmentScheduled := appointmentScheduled s;
     context := context s; view := view s; loading := false;
     posted := posted s; outstanding := pred (outstanding s);
     slotsCache := slotsCache s; servicesResponse := servicesResponse s;
     toasts := toasts s |}.

(** A response of [get_time_slots] arrives: it is stored under the key of
    the request that asked for it. *)
Definition storeSlots (k : SlotsKey) (m : SlotsMessage) (s : Wizard) : Wizard :=
  {| durationId := durationId s; isMobileView := isMobileView s;
     currentStep := currentStep s; formData := formData s;
     displayMonth := displayMonth s; expanded := expanded s;
     bookingResponse := bookingResponse s;
     appointmentScheduled := appointmentScheduled s;
     context := context s; view := view s; loading := loading s;
     posted := posted s; outstanding := outstanding s;
     slotsCache := <[k := m]> (slotsCache s);
     servicesResponse := servicesResponse s;
     toasts := toasts s |}.

(** A response of [get_appointment_services] arrives. *)
Definition storeServices (l : list Service.t) (s : Wizard) : Wizard :=
  {| durationId := durationId s; isMobileView := isMobileView s;
     currentStep := currentStep s; formData := formData s;
     displayMonth := displayMonth s; expanded := expanded s;
     bookingResponse := bookingResponse s;
     appointmentScheduled := appointmentScheduled s;
     context := context s; view := view s; loading := loading s;
     posted := posted s; outstanding := outstanding s;
     slotsCache := slotsCache s; servicesResponse := Some l;
     toasts := toasts s |}.

(** *** Mounting a step

    [MultiStepBooking] renders the component of [currentStep] and hands it
    [initialData] from the draft; the component initialises its local state
    from it ([defaultValues] of [useForm], the argument of [useState]). *)
Definition mount (k : Step) (fd : BookingFormData) : View :=
  match k with
  | Step1 =>
      let initialData := customerInfo fd in
      CustomerInfoView
        {| name := JS.or_else (name <$> initialData) "";
           phone := JS.or_else (phone <$> initialData) "";
           email := JS.or_else (email <$> initialData) "" |}
        ∅
  | Step2 =>
      let initialData := services fd in
      ServicesView (default [] (selectedServices <$> initialData))
  | Step3 =>
      let initialData := location fd in
      let initialLocation := initialData ≫= customerLocation in
      LocationView
        (default our_location (locationType <$> initialData))
        {| CustomerLocationData.location :=
             JS.or_else (CustomerLocationData.location <$> initialLocation) "";
           CustomerLocationData.street :=
             JS.or_else (CustomerLocationData.street <$> initialLocation) "";
           CustomerLocationData.building :=
             JS.or_else (CustomerLocationData.building <$> initialLocation) "";
           CustomerLocationData.apartment :=
             Some (JS.or_else (initialLocation ≫= CustomerLocationData.apartment) "") |}
        ∅
  | Step4 => DateTimeView
  end.

(** [setCurrentStep(k)]: a change of step takes the component on screen
    away and mounts the one of step [k].  The two are one transition here;
    on the desktop layout the exit animation of the leaving component
    lies in between, and the module [Exit] below has the events that fall
    into it. *)
Definition setCurrentStep (k : Step) (s : Wizard) : Wizard :=
  if decide (currentStep s = k) then s
  else
    {| durationId := durationId s; isMobileView := isMobileView s;
       currentStep := k; formData := formData s;
       displayMonth := displayMonth s; expanded := expanded s;
       bookingResponse := bookingResponse s;
       appointmentScheduled := appointmentScheduled s;
       context := context s; view := mount k (formData s); loading := loading s;
       posted := posted s; outstanding := outstanding s;
       slotsCache := slotsCache s; servicesResponse := servicesResponse s;
       toasts := toasts s |}.

(** The wizard as it opens. *)
Definition init (durationId : string) (isMobileView : bool)
    (ctx : AppContext.t) (now : Date) : Wizard :=
  {| durationId := durationId; isMobileView := isMobileView;
     currentStep := Step1; formData := emptyFormData;
     displayMonth := now; expanded := false;
     bookingResponse := None; appointmentScheduled := false;
     context := ctx; view := mount Step1 emptyFormData; loading := false;
     posted := []; outstanding := 0;
     slotsCache := ∅; servicesResponse := None;
     toasts := [] |}.

(** ** [multiStepBooking.tsx] *)

Module MultiStepBooking.
Section handlers.
Context `{Platform}.

Definition handleCustomerInfoNext (data : CustomerInfo) (s : Wizard) : Wizard :=
  let formData := formData s in
  setCurrentStep Step2
    (setFormData
       {| customerInfo := Some data; services := services formData;
          location := location formData; dateTime := dateTime formData |} s).

Definition handleServicesNext (data : ServicesSelectionData) (s : Wizard) : Wizard :=
  let formData := formData s in
  setCurrentStep Step3
    (setFormData
       {| customerInfo := customerInfo formData; services := Some data;
          location := location formData; dateTime := dateTime formData |} s).

Definition handleLocationNext (data : MeetingLocationData) (s : Wizard) : Wizard :=
  let formData := formData s in
  setCurrentStep Step4
    (setFormData
       {| customerInfo := customerInfo formData; services := services formData;
          location := Some data; dateTime := dateTime formData |} s).

(** The object built in [submitBooking] once the four parts are there. *)
Definition meetingData (durationId : string) (ci : CustomerInfo)
    (sv : ServicesSelectionData) (loc : MeetingLocationData)
    (dt : DateTimeSelectionData) : MeetingData.t :=
  {| MeetingData.duration_id := durationId;
     MeetingData.date := formatDate (date dt);
     MeetingData.user_timezone_offset :=
       JS.String_ (getTimeZoneOffsetFromTimeZoneString (timeZone dt));
     MeetingData.start_time := startTime dt;
     MeetingData.end_time := endTime dt;
     MeetingData.user_name := name ci;
     MeetingData.user_email := email ci;
     MeetingData.customer_phone := phone ci;
     MeetingData.selected_services := JS.stringify_strings (selectedServices sv);
     MeetingData.location_type := locationType loc;
     MeetingData.our_location :=
       if decide (locationType loc = our_location) then ourLocation loc else None;
     MeetingData.customer_location :=
       if decide (locationType loc = customer_location)
       then (fun c =>
               JS.stringify_object
                 [("location", Some (CustomerLocationData.location c));
                  ("street", Some (CustomerLocationData.street c));
                  ("building", Some (CustomerLocationData.building c));
                  ("apartment", CustomerLocationData.apartment c)])
            <$> customerLocation loc
       else None |}.

Definition submitBooking (completeData : BookingFormData) (s : Wizard) : Wizard :=
  match customerInfo completeData, services completeData,
        location completeData, dateTime completeData with
  | Some ci, Some sv, Some loc, Some dt =>
      bookAppointment (meetingData (durationId s) ci sv loc dt) s
  | _, _, _, _ => toast "Missing required information" s
  end.

Definition handleDateTimeNext (data : DateTimeSelectionData) (s : Wizard) : Wizard :=
  let formData := formData s in
  let completeData :=
    {| customerInfo := customerInfo formData; services := services formData;
       location := location formData; dateTime := Some data |} in
  submitBooking completeData (setFormData completeData s).

(** The [.then] branch of the promise of [bookAppointment]. *)
Definition onFulfilled (message : BookingResult) (s : Wizard) : Wizard :=
  setAppointmentScheduled true (setBookingResponse (Some message) (settle s)).

(** The [.catch] branch. *)
Definition onRejected (err : FrappeError) (s : Wizard) : Wizard :=
  let error := parseFrappeErrorMsg err in
  toast (JS.or_else error "Something went wrong") (settle s).

(** The [onBack] prop each step component is given; [CustomerInfoForm]
    is given none. *)
Definition onBack (k : Step) : option (Wizard -> Wizard) :=
  match k with
  | Step1 => None
  | Step2 => Some (setCurrentStep Step1)
  | Step3 => Some (setCurrentStep Step2)
  | Step4 => Some (setCurrentStep Step3)
  end.

(** The overlay with the spinner is rendered while [loading]. *)
Definition overlayShown (s : Wizard) : bool := loading s.

(** [SuccessAlert] is rendered when [selectedSlot?.start_time &&
    bookingResponse], and is open when [appointmentScheduled]. *)
Definition successAlertOpen (s : Wizard) : bool :=
  match AppContext.selectedSlot (context s), bookingResponse s with
  | Some slot, Some _ => JS.truthy (Slot.start_time slot) && appointmentScheduled s
  | _, _ => false
  end.

End handlers.
End MultiStepBooking.

(** ** [customerInfoForm.tsx] *)

Module CustomerInfoForm.
Section component.
Context `{Platform}.
Variable onNext : CustomerInfo -> Wizard -> Wizard.

Definition onSubmit (data : CustomerInfo) : Wizard -> Wizard := onNext data.

(** [form.handleSubmit(onSubmit)], run by the Next button. *)
Definition submit (values : CustomerInfo) : Wizard -> Wizard :=
  handleSubmit customerInfoSchema onSubmit
    (fun errors => with_view (CustomerInfoView values errors)) values.

End component.
End CustomerInfoForm.

(** ** [servicesSelection.tsx] *)

Module ServicesSelection.
Section component.
Variable onNext : ServicesSelectionData -> Wizard -> Wizard.

(** [data?.message || []] *)
Definition services (s : Wizard) : list Service.t := default [] (servicesResponse s).

Definition toggleService (serviceName : string) (prev : list string) : list string :=
  if bool_decide (serviceName ∈ prev)
  then filter (fun x => x ≠ serviceName) prev
  else prev ++ [serviceName].

Definition handleNext (selectedServices : list string) (s : Wizard) : Wizard :=
  if (0 <? length selectedServices)%nat
  then onNext {| selectedServices := selectedServices |} s
  else s.

(** The Next button carries [disabled={selectedServices.length === 0}]. *)
Definition nextDisabled (selectedServices : list string) : bool :=
  (length selectedServices =? 0)%nat.

End component.
End ServicesSelection.

(** ** [meetingLocation.tsx] *)

Module MeetingLocation.
Section component.
Variable onNext : MeetingLocationData -> Wizard -> Wizard.

(** The company address.  Its en dash is one code unit in the source and
    stands here as the bytes of its UTF-8 form; the wizard only passes the
    address on and never measures it. *)
Definition ourLocation : string :=
  "Ebkar – Technology & Management Solutions, Dubai, UAE".

Definition onSubmit (locationType : LocationType) (data : CustomerLocationData.t)
    : Wizard -> Wizard :=
  match locationType with
  | our_location =>
      onNext (Build_MeetingLocationData our_location (Some ourLocation) None)
  | customer_location =>
      onNext (Build_MeetingLocationData customer_location None (Some data))
  end.

Definition handleNext (locationType : LocationType) (values : CustomerLocationData.t)
    : Wizard -> Wizard :=
  match locationType with
  | our_location =>
      onNext (Build_MeetingLocationData our_location (Some ourLocation) None)
  | customer_location =>
      handleSubmit customerLocationSchema (onSubmit locationType)
        (fun errors => with_view (LocationView locationType values errors)) values
  end.

End component.
End MeetingLocation.

(** ** [dateTimeSelection.tsx] *)

Module DateTimeSelection.
Section component.
Context `{Platform}.
Variable onNext : DateTimeSelectionData -> Wizard -> Wizard.

Definition setSelectedDate (d : Date) (s : Wizard) : Wizard :=
  with_context
    {| AppContext.timeZone := AppContext.timeZone (context s);
       AppContext.selectedDate := d;
       AppContext.selectedSlot := AppContext.selectedSlot (context s) |} s.

Definition setSelectedSlot (slot : Slot.t) (s : Wizard) : Wizard :=
  with_context
    {| AppContext.timeZone := AppContext.timeZone (context s);
       AppContext.selectedDate := AppContext.selectedDate (context s);
       AppContext.selectedSlot := Some slot |} s.

Definition setTimeZone (tz : string) (s : Wizard) : Wizard :=
  with_context
    {| AppContext.timeZone := tz;
       AppContext.selectedDate := AppContext.selectedDate (context s);
       AppContext.selectedSlot := AppContext.selectedSlot (context s) |} s.

(** The parameters of the [get_time_slots] request of this render. *)
Definition requestKey (s : Wizard) : SlotsKey :=
  (durationId s,
   formatDate (AppContext.selectedDate (context s)),
   JS.String_
     (getTimeZoneOffsetFromTimeZoneString
        (JS.or_else (Some (AppContext.timeZone (context s))) "Asia/Calcutta"))).

(** [data] of [useFrappeGetCall]: what the cache holds for the key of
    this render, [undefined] when it holds nothing. *)
Definition data (s : Wizard) : option SlotsMessage := slotsCache s !! requestKey s.

(** [data?.message || {..}] *)
Definition meetingData (s : Wizard) : SlotsMessage :=
  default
    {| all_available_slots_for_data := []; valid_start_date := None;
       valid_end_date := None; available_days := [] |}
    (data s).

(** [formatTimeSlot(new Date(slot.start_time))]: the label of the button
    of a slot; [timeFormat] only picks between the 12 and the 24 hour
    clock. *)
Definition formatTimeSlot (s : Wizard) (slot : Slot.t) : option string :=
  intlFormatTime (AppContext.timeZone (context s)) (Slot.start_time slot).

(** The slots that have a button on screen: the component maps the slots
    of [meetingData] to buttons and computes the label of each; when one
    label throws, the render throws and no button comes on screen. *)
Definition shownSlots (s : Wizard) : list Slot.t :=
  let slots := all_available_slots_for_data (meetingData s) in
  if forallb (fun slot => bool_decide (is_Some (formatTimeSlot s slot))) slots
  then slots else [].

Definition handleSlotSelect (slot : Slot.t) (s : Wizard) : Wizard :=
  let selectedDate := AppContext.selectedDate (context s) in
  let timeZone := AppContext.timeZone (context s) in
  onNext
    {| date := selectedDate; startTime := Slot.start_time slot;
       endTime := Slot.end_time slot; timeZone := timeZone |}
    (setSelectedSlot slot s).

Definition onDayClick (date : Date) (s : Wizard) : Wizard :=
  setSelectedSlot {| Slot.start_time := ""; Slot.end_time := "" |}
    (setExpanded true (setDisplayMonth date (setSelectedDate date s))).

End component.
End DateTimeSelection.

(** ** The wizard as a state machine

    An event is a user action on the component of the current step, once
    that component has come in, or the arrival of a response.  A handler
    exists only while its component is mounted, a service row or a slot
    button only while the list it is rendered from holds it; an event that
    has no handler leaves the state as it is. *)

Section machine.
Context `{Platform}.

Inductive Event :=
  (* step 1 *)
  | InputCustomerInfo (values : CustomerInfo)
  | SubmitCustomerInfo
  (* step 2 *)
  | ToggleService (serviceName : string)
  | ServicesNext
  (* step 3 *)
  | SetLocationType (t : LocationType)
  | InputLocation (values : CustomerLocationData.t)
  | LocationNext
  (* step 4 *)
  | DayClick (d : Date)
  | SetTimeZone (tz : string)
  | CollapseSlots
  | SlotSelect (slot : Slot.t)
  (* the Back button of steps 2 to 4 *)
  | Back
  (* responses *)
  | BookingFulfilled (message : BookingResult)
  | BookingRejected (err : FrappeError)
  | SlotsArrived (k : SlotsKey) (m : SlotsMessage)
  | ServicesArrived (l : list Service.t).

(** The Back button of the current step: the [onBack] prop its component
    was given, if it was given one. *)
Definition retreat (s : Wizard) : Wizard :=
  match MultiStepBooking.onBack (currentStep s) with
  | Some back => back s
  | None => s
  end.

Definition dispatch (e : Event) (s : Wizard) : Wizard :=
  match e, view s with
  (* typing into a form: the errors of the last Next stay as they are
     here; the next Next computes them afresh from the values *)
  | InputCustomerInfo values, CustomerInfoView _ errors =>
      with_view (CustomerInfoView values errors) s
  | SubmitCustomerInfo, CustomerInfoView values _ =>
      CustomerInfoForm.submit MultiStepBooking.handleCustomerInfoNext values s
  | ToggleService serviceName, ServicesView selected =>
      if bool_decide (serviceName ∈ Service.name <$> ServicesSelection.services s)
      then with_view (ServicesView (ServicesSelection.toggleService serviceName selected)) s
      else s
  | ServicesNext, ServicesView selected =>
      ServicesSelection.handleNext MultiStepBooking.handleServicesNext selected s
  | SetLocationType t, LocationView _ values errors =>
      with_view (LocationView t values errors) s
  | InputLocation values, LocationView locType _ errors =>
      with_view (LocationView locType values errors) s
  | LocationNext, LocationView locType values _ =>
      MeetingLocation.handleNext MultiStepBooking.handleLocationNext locType values s
  | DayClick d, DateTimeView => DateTimeSelection.onDayClick d s
  | SetTimeZone tz, DateTimeView => DateTimeSelection.setTimeZone tz s
  (* the Back of the sticky bar, there when [isMobileView && expanded] *)
  | CollapseSlots, DateTimeView =>
      if isMobileView s && expanded s then setExpanded false s else s
  | SlotSelect slot, DateTimeView =>
      if bool_decide (slot ∈ DateTimeSelection.shownSlots s)
      then DateTimeSelection.handleSlotSelect MultiStepBooking.handleDateTimeNext slot s
      else s
  | Back, ServicesView _ => retreat s
  | Back, LocationView _ _ _ => retreat s
  (* step 4 renders its Back button only when [!isMobileView] *)
  | Back, DateTimeView => if isMobileView s then s else retreat s
  | BookingFulfilled message, _ =>
      if (0 <? outstanding s)%nat then MultiStepBooking.onFulfilled message s else s
  | BookingRejected err, _ =>
      if (0 <? outstanding s)%nat then MultiStepBooking.onRejected err s else s
  | SlotsArrived k m, _ => storeSlots k m s
  | ServicesArrived l, _ => storeServices l s
  | _, _ => s
  end.

(** A run: the events in the order they happen. *)
Definition run (es : list Event) (s : Wizard) : Wizard :=
  foldl (fun s e => dispatch e s) s es.

(** The states the wizard can be in. *)
Inductive reachable : Wizard -> Prop :=
  | reachable_init durationId isMobileView ctx now :
      reachable (init durationId isMobileView ctx now)
  | reachable_step e s :
      reachable s -> reachable (dispatch e s).

End machine.

(** ** Notions the properties are stated with *)

(** The component on screen is the one of [currentStep]. *)
Definition mounted (s : Wizard) : bool :=
  match currentStep s, view s with
  | Step1, CustomerInfoView _ _ => true
  | Step2, ServicesView _ => true
  | Step3, LocationView _ _ _ => true
  | Step4, DateTimeView => true
  | _, _ => false
  end.

(** The step a view belongs to. *)
Definition viewStep (v : View) : Step :=
  match v with
  | CustomerInfoView _ _ => Step1
  | ServicesView _ => Step2
  | LocationView _ _ _ => Step3
  | DateTimeView => Step4
  end.

(** The two shapes [MeetingLocation] hands to [onNext]. *)
Definition locationShape (loc : MeetingLocationData) : Prop :=
  match locationType loc with
  | our_location =>
      ourLocation loc = Some MeetingLocation.ourLocation ∧ customerLocation loc = None
  | customer_location =>
      ourLocation loc = None ∧
      ∃ c, customerLocation loc = Some c ∧ customerLocationSchema c = []
  end.

(** Every part of the draft that is there has passed its step's check. *)
Definition draftChecked `{Platform} (fd : BookingFormData) : Prop :=
  (∀ ci, customerInfo fd = Some ci → customerInfoSchema ci = []) ∧
  (∀ sv, services fd = Some sv → selectedServices sv ≠ []) ∧
  (∀ loc, location fd = Some loc → locationShape loc).

(** The parts of the steps before [k] are there. *)
Definition draftUpTo (k : Step) (fd : BookingFormData) : Prop :=
  match k with
  | Step1 => True
  | Step2 => is_Some (customerInfo fd)
  | Step3 => is_Some (customerInfo fd) ∧ is_Some (services fd)
  | Step4 =>
      is_Some (customerInfo fd) ∧ is_Some (services fd) ∧ is_Some (location fd)
  end.

(** The invariant of the wizard: the component of the current step is on
    screen, what the draft holds has been checked, and the draft holds the
    parts of all earlier steps. *)
Definition wizardInv `{Platform} (s : Wizard) : Prop :=
  mounted s = true ∧ draftChecked (formData s) ∧
  draftUpTo (currentStep s) (formData s).

(** The location part of a request: exactly the detail of its type. *)
Definition locationDetailMatches (m : MeetingData.t) : Prop :=
  match MeetingData.location_type m with
  | our_location =>
      is_Some (MeetingData.our_location m) ∧ MeetingData.customer_location m = None
  | customer_location =>
      is_Some (MeetingData.customer_location m) ∧ MeetingData.our_location m = None
  end.

(** What [handleSlotSelect] hands to [onNext] for a slot. *)
Definition chosen (slot : Slot.t) (s : Wizard) : DateTimeSelectionData :=
  {| date := AppContext.selectedDate (context s);
     startTime := Slot.start_time slot; endTime := Slot.end_time slot;
     timeZone := AppContext.timeZone (context s) |}.

(** The terminal presentation: the result is held and the alert is open. *)
Definition confirmed (s : Wizard) (r : BookingResult) : Prop :=
  bookingResponse s = Some r ∧ appointmentScheduled s = true.

(** The number of decimal digits in a string. *)
Fixpoint digits (s : string) : nat :=
  match s with
  | EmptyString => 0
  | String c r =>
      (if (48 <=? nat_of_ascii c)%nat && (nat_of_ascii c <=? 57)%nat then 1 else 0)
      + digits r
  end.

(** What the user has entered on the step on screen, without the error
    messages of the form. *)
Inductive Entered :=
  | EnteredCustomerInfo (values : CustomerInfo)
  | EnteredServices (selected : list string)
  | EnteredLocation (locType : LocationType) (values : CustomerLocationData.t)
  | EnteredDateTime.

Definition entered (v : View) : Entered :=
  match v with
  | CustomerInfoView values _ => EnteredCustomerInfo values
  | ServicesView selected => EnteredServices selected
  | LocationView locType values _ => EnteredLocation locType values
  | DateTimeView => EnteredDateTime
  end.

(** The errors the step on screen shows; [ServicesSelection] and
    [DateTimeSelection] have no place for any. *)
Definition reportedErrors (v : View) : FieldErrors :=
  match v with
  | CustomerInfoView _ errors => errors
  | LocationView _ _ errors => errors
  | ServicesView _ => ∅
  | DateTimeView => ∅
  end.

(** The Next action of the step on screen, for the three steps that have
    a Next button. *)
Definition advance `{Platform} (s : Wizard) : Wizard :=
  match view s with
  | CustomerInfoView _ _ => dispatch SubmitCustomerInfo s
  | ServicesView _ => dispatch ServicesNext s
  | LocationView _ _ _ => dispatch LocationNext s
  | DateTimeView => s
  end.

(** In a run that respects the overlay no slot is chosen while the
    overlay of the spinner covers the page. *)
Fixpoint respectsOverlay `{Platform} (es : list Event) (s : Wizard) : bool :=
  match es with
  | [] => true
  | e :: rest =>
      (match e with
       | SlotSelect _ => negb (MultiStepBooking.overlayShown s)
       | _ => true
       end) && respectsOverlay rest (dispatch e s)
  end.


(** The issues the schema of the form on screen raises on its values; the
    form of step 3 is only submitted in the mode customer_location. *)
Definition viewIssues `{Platform} (v : View) : list ZodIssue :=
  match v with
  | CustomerInfoView values _ => customerInfoSchema values
  | LocationView customer_location values _ => customerLocationSchema values
  | _ => []
  end.

(** The fields the check of the step on screen finds invalid: the paths of
    the issues of its schema, or the empty selection that [handleNext] of
    [ServicesSelection] guards against. *)
Definition invalidFields `{Platform} (v : View) : list string :=
  match v with
  | ServicesView selected =>
      if (0 <? length selected)%nat then [] else ["selectedServices"]
  | _ => (viewIssues v).*1
  end.

(** *** The specification's wording, where the code departs from it *)

(** An invalid input leaves the step and the draft as they are, and every
    invalid field is reported with one error. *)
Definition advanceReportsEachInvalidField `{Platform} (s : Wizard) : Prop :=
  invalidFields (view s) ≠ [] →
  currentStep (advance s) = currentStep s ∧
  formData (advance s) = formData s ∧
  size (reportedErrors (view (advance s))) = length (invalidFields (view s)).

(** While a submission is outstanding no event starts another one. *)
Definition singleFlight `{Platform} (s : Wizard) (e : Event) : Prop :=
  (0 < outstanding s)%nat → posted (dispatch e s) = posted s.

(** After Back the wizard still holds what was entered on the step that
    was left: coming back to that step shows it again. *)
Definition retreatKeepsEntered (s : Wizard) : Prop :=
  entered (mount (currentStep s) (formData (retreat s))) = entered (view s).



(** ** A concrete platform and concrete runs *)

Module Demo.

Definition platform : Platform :=
  {| FrappeError := option string;
     formatDate := fun d => JS.String_ (d / 86400000);
     getTimeZoneOffsetFromTimeZoneString :=
       fun tz => if decide (tz = "Asia/Calcutta") then 330%Z else 0%Z;
     parseFrappeErrorMsg := fun e => e;
     zod_email := fun s => bool_decide (s = "amal@example.com");
     intlFormatTime :=
       fun tz start_time =>
         if decide (tz = "Asia/Calcutta") then Some start_time else None;
     intlFormatTime_empty_zone := fun _ => eq_refl |}.

Definition ctx : AppContext.t :=
  {| AppContext.timeZone := "Asia/Calcutta";
     AppContext.selectedDate := 0%Z;
     AppContext.selectedSlot := None |}.

Definition start : Wizard := init "30-min" false ctx 0%Z.

Definition amal : CustomerInfo :=
  {| name := "Amal"; phone := "0501234567"; email := "amal@example.com" |}.

Definition serviceA : Service.t :=
  {| Service.name := "A"; Service.service_name := "IT Consultation";
     Service.description := None; Service.duration := Some 60%Z;
     Service.price := None |}.

Definition serviceB : Service.t :=
  {| Service.name := "B"; Service.service_name := "Technical Support";
     Service.description := None; Service.duration := Some 90%Z;
     Service.price := None |}.

Definition noStreet : CustomerLocationData.t :=
  {| CustomerLocationData.location := "Doha";
     CustomerLocationData.street := "";
     CustomerLocationData.building := "7";
     CustomerLocationData.apartment := Some "" |}.

Definition slot10 : Slot.t :=
  {| Slot.start_time := "2025-01-01 10:00:00"; Slot.end_time := "2025-01-01 10:30:00" |}.

Definition slot11 : Slot.t :=
  {| Slot.start_time := "2025-01-01 11:00:00"; Slot.end_time := "2025-01-01 11:30:00" |}.

Definition day0 : SlotsMessage :=
  {| all_available_slots_for_data := [slot10; slot11];
     valid_start_date := None; valid_end_date := None; available_days := [] |}.

Definition day1 : SlotsMessage :=
  {| all_available_slots_for_data := [slot11];
     valid_start_date := None; valid_end_date := None; available_days := [] |}.

Definition result : BookingResult :=
  {| meeting_provider := "Google Meet"; meet_link := "https://meet.example/x";
     reschedule_url := "https://book.example/r";
     google_calendar_event_url := "https://cal.example/e" |}.

(** The error of a booking the server refuses. *)
Definition slotTaken : @FrappeError platform :=
  (Some "Slot already booked" : option string).

(** The events up to each stage of a booking. *)
Definition toCustomerInfo : list (@Event platform) :=
  [InputCustomerInfo amal].

Definition toServices : list (@Event platform) :=
  toCustomerInfo ++ [SubmitCustomerInfo; ServicesArrived [serviceA; serviceB]].

Definition toServicesA : list (@Event platform) :=
  toServices ++ [ToggleService "A"].

Definition toLocation : list (@Event platform) :=
  toServicesA ++ [ServicesNext].

Definition toLocationNoStreet : list (@Event platform) :=
  toLocation ++ [SetLocationType customer_location; InputLocation noStreet].

Definition toDateTime : list (@Event platform) :=
  toLocation ++ [LocationNext; SlotsArrived ("30-min", "0", "330") day0].

Definition toSubmitting : list (@Event platform) :=
  toDateTime ++ [SlotSelect slot10].



(** Step 4 with the slots of the next day in the cache as well. *)
Definition toDateTimeTwoDays : list (@Event platform) :=
  toDateTime ++ [SlotsArrived ("30-min", "1", "330") day1].

(** Step 2 on screen, the catalogue [A, B] loaded, nothing selected. *)
Definition atServices : Wizard := run toServices start.

(** Step 2 with [A] ticked. *)
Definition atServicesA : Wizard := run toServicesA start.

(** A slot chosen: the request is out and unanswered. *)
Definition submitting : Wizard := run toSubmitting start.

End Demo.

(** A run of the concrete wizard from its opening. *)
Abbreviation demoRun es :=
  (@run Demo.platform es (init "30-min" false Demo.ctx 0%Z)).

(** Unfold the handlers down to the record they build. *)
Ltac handlers :=
  unfold dispatch, retreat, MultiStepBooking.onBack,
    CustomerInfoForm.submit, ServicesSelection.handleNext,
    MeetingLocation.handleNext, handleSubmit,
    CustomerInfoForm.onSubmit, MeetingLocation.onSubmit,
    DateTimeSelection.handleSlotSelect, DateTimeSelection.onDayClick,
    DateTimeSelection.setTimeZone, DateTimeSelection.setSelectedSlot,
    DateTimeSelection.setSelectedDate,
    MultiStepBooking.handleCustomerInfoNext, MultiStepBooking.handleServicesNext,
    MultiStepBooking.handleLocationNext, MultiStepBooking.handleDateTimeNext,
    MultiStepBooking.submitBooking, MultiStepBooking.onFulfilled,
    MultiStepBooking.onRejected,
    setCurrentStep, setFormData, with_view, with_context, setDisplayMonth,
    setExpanded, setBookingResponse, setAppointmentScheduled, toast,
    bookAppointment, settle, storeSlots, storeServices in *.

(** ** Further notions: kinds of events *)

(** The Next buttons of the first three steps. *)
Definition isNext `{Platform} (e : Event) : bool :=
  match e with
  | SubmitCustomerInfo | ServicesNext | LocationNext => true
  | _ => false
  end.

(** Every catalogue response of the run is the list [catalogue]. *)
Definition catalogueIs `{Platform} (catalogue : list Service.t) (es : list Event) : Prop :=
  Forall (fun e => match e with
                   | ServicesArrived l => l = catalogue
                   | _ => True
                   end) es.

(** The selections the wizard holds: the one ticked on the Services step
    when that step is on screen, and the one recorded in the draft. *)
Definition selectionsSatisfy (P : list string → Prop) (s : Wizard) : Prop :=
  (∀ selected, view s = ServicesView selected → P selected) ∧
  (∀ sv, services (formData s) = Some sv → P (selectedServices sv)).

(** Every part that the draft [fd] holds, the draft [fd'] holds too. *)
Definition partsKept (fd fd' : BookingFormData) : Prop :=
  (is_Some (customerInfo fd) → is_Some (customerInfo fd')) ∧
  (is_Some (services fd) → is_Some (services fd')) ∧
  (is_Some (location fd) → is_Some (location fd')) ∧
  (is_Some (dateTime fd) → is_Some (dateTime fd')).

(** A request whose customer data, selection and address have passed the
    checks of the steps they were entered on. *)
Definition requestChecked `{Platform} (m : MeetingData.t) : Prop :=
  (2 ≤ String.length (MeetingData.user_name m))%nat ∧
  (10 ≤ String.length (MeetingData.customer_phone m))%nat ∧
  zod_email (MeetingData.user_email m) = true ∧
  (∃ selected,
     selected ≠ [] ∧ NoDup selected ∧
     MeetingData.selected_services m = JS.stringify_strings selected) ∧
  (MeetingData.location_type m = customer_location →
   ∃ c,
     (3 ≤ String.length (CustomerLocationData.location c))%nat ∧
     (3 ≤ String.length (CustomerLocationData.street c))%nat ∧
     (1 ≤ String.length (CustomerLocationData.building c))%nat ∧
     MeetingData.customer_location m =
       Some (JS.stringify_object
               [("location", Some (CustomerLocationData.location c));
                ("street", Some (CustomerLocationData.street c));
                ("building", Some (CustomerLocationData.building c));
                ("apartment", CustomerLocationData.apartment c)])).

(** The books of the submissions: every toast and every request that is
    still unanswered is accounted for by a posted request, a result is
    only held after a request was posted, and the alert is only set open
    with a result. *)
Definition submissionsAccounted (s : Wizard) : Prop :=
  (length (toasts s) + outstanding s ≤ length (posted s))%nat ∧
  (is_Some (bookingResponse s) → posted s ≠ []) ∧
  (appointmentScheduled s = true → is_Some (bookingResponse s)).

(** ** Reading a JSON string literal back

    The reader that undoes [JS.escape]: it is used to show that the
    serialised parts of a request determine what was serialised. *)

Module JSRead.

(** The value of a hexadecimal digit in lower case. *)
Definition hex_value (c : ascii) : nat :=
  let n := nat_of_ascii c in
  if (n <? 58)%nat then (n - 48)%nat else (n - 87)%nat.

(** The code unit a two-character escape stands for. *)
Definition simple_escape (e : ascii) : option ascii :=
  let n := nat_of_ascii e in
  if (n =? 98)%nat then Some (ascii_of_nat 8)
  else if (n =? 116)%nat then Some (ascii_of_nat 9)
  else if (n =? 110)%nat then Some (ascii_of_nat 10)
  else if (n =? 102)%nat then Some (ascii_of_nat 12)
  else if (n =? 114)%nat then Some (ascii_of_nat 13)
  else if (n =? 34)%nat then Some JS.quote
  else if (n =? 92)%nat then Some JS.backslash
  else None.

(** The body of a string literal up to its closing quote, decoded, and
    what follows the quote. *)
Fixpoint body (s : string) : option (string * string) :=
  match s with
  | EmptyString => None
  | String c r =>
      if Ascii.eqb c JS.quote then Some (EmptyString, r)
      else if Ascii.eqb c JS.backslash then
        match r with
        | String e r' =>
            if (nat_of_ascii e =? 117)%nat then
              match r' with
              | String _ (String _ (String h1 (String h2 r''))) =>
                  match body r'' with
                  | Some (d, rest) =>
                      Some (String (ascii_of_nat (16 * hex_value h1 + hex_value h2)) d, rest)
                  | None => None
                  end
              | _ => None
              end
            else
              match simple_escape e, body r' with
              | Some c', Some (d, rest) => Some (String c' d, rest)
              | _, _ => None
              end
        | EmptyString => None
        end
      else
        match body r with
        | Some (d, rest) => Some (String c d, rest)
        | None => None
        end
  end.

End JSRead.

(** The JSON object [submitBooking] makes of a customer's address. *)
Definition customerLocationJSON (c : CustomerLocationData.t) : string :=
  JS.stringify_object
    [("location", Some (CustomerLocationData.location c));
     ("street", Some (CustomerLocationData.street c));
     ("building", Some (CustomerLocationData.building c));
     ("apartment", CustomerLocationData.apartment c)].

(** ** The exit animation

    [MultiStepBooking] renders the step inside [<AnimatePresence
    mode="wait">], and every step component is a [motion.div] with an
    [exit] of 0.2 s on the desktop layout.  When [currentStep] changes
    there, the component on screen is not taken away at once: it stays
    mounted while its exit animation plays, rendered from the element of
    the last render it was part of, and the component of the new step is
    mounted when the animation is over.  In between the buttons of the
    leaving component work, with the props of that last render: [onBack]
    sets the step before its own, [onNext] spreads the draft of that
    render.  On the mobile layout [exit] is empty: there is nothing to
    play and the component goes at once.

    The machine above takes the change of step and the mount that follows
    as one transition, so its events are those of a component that has
    come in.  The machine below has the time in between as well. *)

Module Exit.
Section exit.
Context `{Platform}.

(** The wizard with, while a component is leaving, the draft of the render
    that component comes from; [view] is the component on screen, the
    leaving one as long as there is one. *)
Record Screen := {
  wizard : Wizard;
  exiting : option BookingFormData
}.

(** [setCurrentStep(k)] while a component is leaving: the state cell
    changes, what is on screen does not. *)
Definition setStep (k : Step) (s : Wizard) : Wizard :=
  {| durationId := durationId s; isMobileView := isMobileView s;
     currentStep := k; formData := formData s;
     displayMonth := displayMonth s; expanded := expanded s;
     bookingResponse := bookingResponse s;
     appointmentScheduled := appointmentScheduled s;
     context := context s; view := view s; loading := loading s;
     posted := posted s; outstanding := outstanding s;
     slotsCache := slotsCache s; servicesResponse := servicesResponse s;
     toasts := toasts s |}.

(** What a component shows once its Next has gone through: a
    [handleSubmit] that found no issue has emptied the errors of the form
    (the form of step 3 is only submitted in the mode customer_location). *)
Definition afterNext (v : View) : View :=
  match v with
  | CustomerInfoView values _ => CustomerInfoView values ∅
  | LocationView customer_location values _ => LocationView customer_location values ∅
  | _ => v
  end.

(** The handlers of [MultiStepBooking] as the render with the draft
    [formData] made them. *)
Definition handleCustomerInfoNext (formData : BookingFormData) (data : CustomerInfo)
    (s : Wizard) : Wizard :=
  setStep Step2
    (setFormData
       {| customerInfo := Some data; services := services formData;
          location := location formData; dateTime := dateTime formData |} s).

Definition handleServicesNext (formData : BookingFormData) (data : ServicesSelectionData)
    (s : Wizard) : Wizard :=
  setStep Step3
    (setFormData
       {| customerInfo := customerInfo formData; services := Some data;
          location := location formData; dateTime := dateTime formData |} s).

Definition handleLocationNext (formData : BookingFormData) (data : MeetingLocationData)
    (s : Wizard) : Wizard :=
  setStep Step4
    (setFormData
       {| customerInfo := customerInfo formData; services := services formData;
          location := Some data; dateTime := dateTime formData |} s).

Definition handleDateTimeNext (formData : BookingFormData) (data : DateTimeSelectionData)
    (s : Wizard) : Wizard :=
  let completeData :=
    {| customerInfo := customerInfo formData; services := services formData;
       location := location formData; dateTime := Some data |} in
  MultiStepBooking.submitBooking completeData (setFormData completeData s).

Definition onBack (k : Step) : option (Wizard -> Wizard) :=
  match k with
  | Step1 => None
  | Step2 => Some (setStep Step1)
  | Step3 => Some (setStep Step2)
  | Step4 => Some (setStep Step3)
  end.

(** An [onNext] reached through a Next that went through. *)
Definition passed {D : Type} (onNext : D -> Wizard -> Wizard) (data : D) (s : Wizard)
    : Wizard :=
  onNext data (with_view (afterNext (view s)) s).

(** An event on the leaving component.  Its local state, the context and
    the arrival of responses are as ever; its Next and its Back are the
    callbacks made with the draft [formData]. *)
Definition leavingDispatch (formData : BookingFormData) (e : Event) (s : Wizard)
    : Wizard :=
  match e, view s with
  | SubmitCustomerInfo, CustomerInfoView values _ =>
      CustomerInfoForm.submit (passed (handleCustomerInfoNext formData)) values s
  | ServicesNext, ServicesView selected =>
      ServicesSelection.handleNext (passed (handleServicesNext formData)) selected s
  | LocationNext, LocationView locType values _ =>
      MeetingLocation.handleNext (passed (handleLocationNext formData)) locType values s
  | SlotSelect slot, DateTimeView =>
      if bool_decide (slot ∈ DateTimeSelection.shownSlots s)
      then DateTimeSelection.handleSlotSelect (handleDateTimeNext formData) slot s
      else s
  | Back, DateTimeView =>
      if isMobileView s then s else setStep Step3 s
  | Back, v =>
      match onBack (viewStep v) with
      | Some back => back s
      | None => s
      end
  | SubmitCustomerInfo, _ | ServicesNext, _ | LocationNext, _ | SlotSelect _, _ => s
  | _, _ => dispatch e s
  end.

(** What happens on screen: a click or a response, or the end of the exit
    animation. *)
Inductive Action :=
  | Happens (e : Event)
  | ExitComplete.

Definition step (a : Action) (x : Screen) : Screen :=
  match a, exiting x with
  | Happens e, None =>
      let s := wizard x in
      let s' := dispatch e s in
      if bool_decide (currentStep s' = currentStep s) || isMobileView s
      then {| wizard := s'; exiting := None |}
      else
        {| wizard :=
             with_view (match e with Back => view s | _ => afterNext (view s) end) s';
           exiting := Some (formData s) |}
  | Happens e, Some formData =>
      {| wizard := leavingDispatch formData e (wizard x); exiting := Some formData |}
  | ExitComplete, Some _ =>
      let s := wizard x in
      {| wizard := with_view (mount (currentStep s) (formData s)) s; exiting := None |}
  | ExitComplete, None => x
  end.

Definition run (actions : list Action) (x : Screen) : Screen :=
  foldl (fun x a => step a x) x actions.

(** The wizard as it opens. *)
Definition start (dur : string) (mobile : bool) (ctx : AppContext.t) (now : Date)
    : Screen :=
  {| wizard := init dur mobile ctx now; exiting := None |}.

(** A run in which every event waits for the end of the animation. *)
Definition waiting (es : list Event) : list Action :=
  flat_map (fun e => [Happens e; ExitComplete]) es.

(** Two steps next to each other. *)
Definition neighbour (k n : Step) : Prop :=
  step_number k = S (step_number n) ∨ S (step_number k) = step_number n.

(** What holds of the draft a leaving component was rendered with. *)
Definition leavingOk (fd : BookingFormData) (s : Wizard) : Prop :=
  isMobileView s = false ∧
  draftChecked fd ∧ draftUpTo (viewStep (view s)) fd ∧
  partsKept fd (formData s) ∧
  (∀ sv, services fd = Some sv → NoDup (selectedServices sv)) ∧
  neighbour (currentStep s) (viewStep (view s)).

(** The invariant of the wizard with its exits: the draft holds checked
    parts, and those of all steps before the current one; no selection
    holds an id twice; the requests posted are built from checked parts;
    the component on screen is the one of the current step, or a leaving
    one of a step next to it. *)
Definition inv (x : Screen) : Prop :=
  let s := wizard x in
  draftChecked (formData s) ∧ draftUpTo (currentStep s) (formData s) ∧
  selectionsSatisfy NoDup s ∧
  Forall requestChecked (posted s) ∧ Forall locationDetailMatches (posted s) ∧
  match exiting x with
  | None => mounted s = true
  | Some fd => leavingOk fd s
  end.

End exit.
End Exit.

(** ** More concrete runs *)

Module DemoExtra.

Definition home : CustomerLocationData.t :=
  {| CustomerLocationData.location := "Doha";
     CustomerLocationData.street := "Corniche";
     CustomerLocationData.building := "7";
     CustomerLocationData.apartment := Some "12" |}.

(** Step 3, "Your Location" chosen and an address filled in. *)
Definition toLocationHome : list (@Event Demo.platform) :=
  Demo.toLocation ++ [SetLocationType customer_location; InputLocation home].

Definition selectionAB : ServicesSelectionData :=
  {| selectedServices := ["A"; "B"] |}.

Definition atHome : MeetingLocationData :=
  Build_MeetingLocationData customer_location None (Some home).

Definition morning : DateTimeSelectionData :=
  {| date := 0%Z; startTime := "2025-01-01 10:00:00";
     endTime := "2025-01-01 10:30:00"; timeZone := "Asia/Calcutta" |}.





End DemoExtra.

(** A run of the concrete wizard on the mobile layout. *)
Abbreviation demoRunMobile es :=
  (@run Demo.platform es (init "30-min" true Demo.ctx 0%Z)).

(** A run of the concrete wizard with its exit animations, up to a state
    in which every event so far has waited for the animation. *)
Abbreviation demoExit es :=
  (@Exit.run Demo.platform (@Exit.waiting Demo.platform es)
     (Exit.start "30-min" false Demo.ctx 0%Z)).

(** * Properties *)

(** ** Forms and schemas *)

Section validation.
Context `{Platform}.

Lemma parseErrorSchema_union (issues : list ZodIssue) (errors : FieldErrors) :
  parseErrorSchema issues errors = errors ∪ list_to_map issues.
Proof.
  revert errors. induction issues as [|[path message] rest IH]; intros errors; simpl.
  - by rewrite (right_id_L ∅ (∪)).
  - rewrite IH. destruct (errors !! path) as [m|] eqn:Hp.
    + apply map_eq. intros i. rewrite !lookup_union.
      destruct (decide (i = path)) as [->|Hne].
      * rewrite Hp. by rewrite !union_Some_l.
      * by rewrite lookup_insert_ne.
    + rewrite <- insert_union_l. by apply insert_union_r.
Qed.

Lemma parseErrorSchema_empty (issues : list ZodIssue) :
  parseErrorSchema issues ∅ = list_to_map issues.
Proof. rewrite parseErrorSchema_union. by rewrite (left_id_L ∅ (∪)). Qed.

(** With one issue per path at most, the errors are the issues. *)
Lemma parseErrorSchema_exact (issues : list ZodIssue) :
  NoDup issues.*1 →
  size (parseErrorSchema issues ∅) = length issues ∧
  dom (parseErrorSchema issues ∅) = list_to_set (C := gset string) issues.*1 ∧
  ∀ path message,
    parseErrorSchema issues ∅ !! path = Some message ↔ (path, message) ∈ issues.
Proof.
  intros Hnd. rewrite parseErrorSchema_empty. split; [|split].
  - transitivity (length issues.*1); [|apply length_fmap].
    rewrite <- (size_list_to_set (C := gset string) issues.*1) by done.
    rewrite <- dom_list_to_map_L. by rewrite size_dom.
  - by rewrite dom_list_to_map_L.
  - intros path message. symmetry. by apply elem_of_list_to_map.
Qed.

Lemma customerInfoSchema_NoDup (v : CustomerInfo) : NoDup (customerInfoSchema v).*1.
Proof.
  unfold customerInfoSchema, z_min, z_email.
  repeat case_match; simpl; by apply (bool_decide_unpack _).
Qed.

Lemma customerLocationSchema_NoDup (v : CustomerLocationData.t) :
  NoDup (customerLocationSchema v).*1.
Proof.
  unfold customerLocationSchema, z_min.
  repeat case_match; simpl; by apply (bool_decide_unpack _).
Qed.

(** What [customerInfoSchema] accepts. *)
Lemma customerInfoSchema_accepts (v : CustomerInfo) :
  customerInfoSchema v = [] ↔
  (2 ≤ String.length (name v))%nat ∧ (10 ≤ String.length (phone v))%nat ∧
  zod_email (email v) = true.
Proof.
  unfold customerInfoSchema, z_min, z_email.
  destruct (Nat.ltb_spec (String.length (name v)) 2) as [Hname|Hname];
    destruct (Nat.ltb_spec (String.length (phone v)) 10) as [Hphone|Hphone];
    destruct (zod_email (email v)) eqn:Hemail; simpl;
    (split; [intros Hnil | intros (? & ? & ?)]);
    try discriminate; try lia; repeat split; first [lia | done].
Qed.

(** What [customerLocationSchema] accepts: [apartment] is free. *)
Lemma customerLocationSchema_accepts (v : CustomerLocationData.t) :
  customerLocationSchema v = [] ↔
  (3 ≤ String.length (CustomerLocationData.location v))%nat ∧
  (3 ≤ String.length (CustomerLocationData.street v))%nat ∧
  (1 ≤ String.length (CustomerLocationData.building v))%nat.
Proof.
  unfold customerLocationSchema, z_min.
  destruct (Nat.ltb_spec (String.length (CustomerLocationData.location v)) 3) as [Hl|Hl];
    destruct (Nat.ltb_spec (String.length (CustomerLocationData.street v)) 3) as [Hs|Hs];
    destruct (Nat.ltb_spec (String.length (CustomerLocationData.building v)) 1) as [Hb|Hb];
    simpl; (split; [intros Hnil | intros (? & ? & ?)]);
    try discriminate; try lia; repeat split; first [lia | done].
Qed.

Lemma digits_le_length (s : string) : (digits s ≤ String.length s)%nat.
Proof. induction s as [|c r IH]; simpl; [lia|]. case_match; lia. Qed.

End validation.

(** ** Runs and reachable states *)

Section runs.
Context `{Platform}.

Lemma run_snoc (es : list Event) (e : Event) (s : Wizard) :
  run (es ++ [e]) s = dispatch e (run es s).
Proof. unfold run. by rewrite foldl_app. Qed.

Lemma reachable_run (es : list Event) (s : Wizard) :
  reachable s → reachable (run es s).
Proof.
  intros Hs. induction es as [|e es IH] using rev_ind; [done|].
  rewrite run_snoc. by constructor.
Qed.

Lemma reachable_is_run (s : Wizard) :
  reachable s ↔
  ∃ durationId isMobileView ctx now es,
    s = run es (init durationId isMobileView ctx now).
Proof.
  split.
  - induction 1 as [d mob ctx now|e s _ (d & mob & ctx & now & es & ->)].
    + by exists d, mob, ctx, now, [].
    + exists d, mob, ctx, now, (es ++ [e]). by rewrite run_snoc.
  - intros (d & mob & ctx & now & es & ->). apply reachable_run. constructor.
Qed.

Lemma wizardInv_init durationId isMobileView ctx now :
  wizardInv (init durationId isMobileView ctx now).
Proof. repeat split; intros ? [=]. Qed.


Lemma mounted_step (s : Wizard) :
  mounted s = true ↔ currentStep s = viewStep (view s).
Proof. unfold mounted. destruct (currentStep s), (view s); simpl; split; done. Qed.

Lemma mounted_mount (k : Step) (fd : BookingFormData) : viewStep (mount k fd) = k.
Proof. by destruct k. Qed.

Lemma mounted_setCurrentStep (k : Step) (s : Wizard) :
  mounted s = true → mounted (setCurrentStep k s) = true.
Proof.
  intros Hm. unfold setCurrentStep. case_decide; [done|].
  apply mounted_step. simpl. by rewrite mounted_mount.
Qed.

(** An update that keeps the step, the draft and the kind of view. *)
Lemma wizardInv_same (s s' : Wizard) :
  currentStep s' = currentStep s → formData s' = formData s →
  viewStep (view s') = viewStep (view s) →
  wizardInv s → wizardInv s'.
Proof.
  intros Hstep Hfd Hv (Hm & Hc & Hu). unfold wizardInv.
  rewrite Hstep, Hfd. split; [|done].
  apply mounted_step. rewrite Hstep, Hv. by apply mounted_step.
Qed.

Lemma wizardInv_setCurrentStep (k : Step) (s : Wizard) :
  mounted s = true → draftChecked (formData s) → draftUpTo k (formData s) →
  wizardInv (setCurrentStep k s).
Proof.
  intros Hm Hc Hu. split; [by apply mounted_setCurrentStep|].
  unfold setCurrentStep. case_decide as Hk; simpl; [by rewrite Hk|done].
Qed.

Lemma wizardInv_handleCustomerInfoNext (data : CustomerInfo) (s : Wizard) :
  wizardInv s → customerInfoSchema data = [] →
  wizardInv (MultiStepBooking.handleCustomerInfoNext data s).
Proof.
  intros (Hm & (Hci & Hsv & Hloc) & Hu) Hdata.
  apply wizardInv_setCurrentStep; [exact Hm| |by eexists].
  repeat split; simpl; [|done..]. by intros ci [= <-].
Qed.

Lemma wizardInv_handleServicesNext (data : ServicesSelectionData) (s : Wizard) :
  wizardInv s → currentStep s = Step2 → selectedServices data ≠ [] →
  wizardInv (MultiStepBooking.handleServicesNext data s).
Proof.
  intros (Hm & (Hci & Hsv & Hloc) & Hu) Hstep Hdata. rewrite Hstep in Hu.
  apply wizardInv_setCurrentStep; [exact Hm| |by split; [|eexists]].
  repeat split; simpl; [done| |done]. by intros sv [= <-].
Qed.

Lemma wizardInv_handleLocationNext (data : MeetingLocationData) (s : Wizard) :
  wizardInv s → currentStep s = Step3 → locationShape data →
  wizardInv (MultiStepBooking.handleLocationNext data s).
Proof.
  intros (Hm & (Hci & Hsv & Hloc) & Hu) Hstep Hdata. rewrite Hstep in Hu.
  destruct Hu as [Hu1 Hu2].
  apply wizardInv_setCurrentStep; [exact Hm| |by repeat split; [..|eexists]].
  repeat split; simpl; [done..|]. by intros loc [= <-].
Qed.

Lemma wizardInv_handleDateTimeNext (data : DateTimeSelectionData) (s : Wizard) :
  wizardInv s → wizardInv (MultiStepBooking.handleDateTimeNext data s).
Proof.
  intros (Hm & (Hci & Hsv & Hloc) & Hu).
  unfold MultiStepBooking.handleDateTimeNext, MultiStepBooking.submitBooking.
  simpl. set (s1 := setFormData _ s).
  assert (wizardInv s1) as Hs1.
  { split; [exact Hm|]. split; [by repeat split|].
    subst s1. simpl. by destruct (currentStep s). }
  repeat case_match; exact Hs1.
Qed.

Lemma wizardInv_retreat (s : Wizard) : wizardInv s → wizardInv (retreat s).
Proof.
  intros Hinv. pose proof Hinv as (Hm & Hc & Hu).
  unfold retreat, MultiStepBooking.onBack.
  destruct (currentStep s) eqn:Hstep; [exact Hinv|..];
    (apply wizardInv_setCurrentStep; [done|done|]); simpl in *; tauto.
Qed.

Lemma wizardInv_dispatch (e : Event) (s : Wizard) :
  wizardInv s → wizardInv (dispatch e s).
Proof.
  intros Hinv.
  assert (currentStep s = viewStep (view s)) as Hstep
    by (apply mounted_step, Hinv).
  destruct e; unfold dispatch; destruct (view s) eqn:Hview;
    try exact Hinv; simpl in Hstep;
    try (case_match; try exact Hinv);
    try (by apply wizardInv_retreat);
    try (by apply (wizardInv_same s); [..|rewrite Hview|]).
  - unfold CustomerInfoForm.submit, CustomerInfoForm.onSubmit, handleSubmit.
    destruct (customerInfoSchema values) eqn:Hvalues.
    + by apply wizardInv_handleCustomerInfoNext.
    + by apply (wizardInv_same s); [..|rewrite Hview|].
  - unfold ServicesSelection.handleNext.
    destruct selected; simpl; [exact Hinv|].
    by apply wizardInv_handleServicesNext.
  - unfold MeetingLocation.handleNext, MeetingLocation.onSubmit, handleSubmit.
    destruct locType.
    + by apply wizardInv_handleLocationNext.
    + destruct (customerLocationSchema values) eqn:Hvalues.
      * apply wizardInv_handleLocationNext; [done..|].
        split; [done|by eexists].
      * by apply (wizardInv_same s); [..|rewrite Hview|].
  - by apply wizardInv_handleDateTimeNext.
Qed.



Lemma wizardInv_reachable (s : Wizard) : reachable s → wizardInv s.
Proof.
  induction 1; [apply wizardInv_init|by apply wizardInv_dispatch].
Qed.

End runs.

(** ** The steps one by one *)

Section steps.
Context `{Platform}.

Lemma reachable_start (es : list Event) durationId isMobileView ctx now :
  reachable (run es (init durationId isMobileView ctx now)).
Proof. apply reachable_run. constructor. Qed.

Lemma reachable_view_step (s : Wizard) :
  reachable s → currentStep s = viewStep (view s).
Proof. intros Hs. apply mounted_step. by apply wizardInv_reachable. Qed.

Lemma reachable_step1_view (s : Wizard) :
  reachable s → currentStep s = Step1 →
  ∃ values errors, view s = CustomerInfoView values errors.
Proof.
  intros Hs Hstep. apply reachable_view_step in Hs. rewrite Hstep in Hs.
  destruct (view s); try discriminate Hs. by eexists _, _.
Qed.

Lemma reachable_step4_view (s : Wizard) :
  reachable s → currentStep s = Step4 → view s = DateTimeView.
Proof.
  intros Hs Hstep. apply reachable_view_step in Hs. rewrite Hstep in Hs.
  by destruct (view s).
Qed.

(** An accepted form of step 1 goes to [handleCustomerInfoNext]. *)
Lemma submit_customerInfo_valid (s : Wizard) (values : CustomerInfo) errors :
  view s = CustomerInfoView values errors → customerInfoSchema values = [] →
  dispatch SubmitCustomerInfo s = MultiStepBooking.handleCustomerInfoNext values s.
Proof.
  intros Hview Hvalid. unfold dispatch. rewrite Hview.
  unfold CustomerInfoForm.submit, handleSubmit. by rewrite Hvalid.
Qed.

(** A rejected form of step 1 only stores its errors. *)
Lemma submit_customerInfo_invalid (s : Wizard) (values : CustomerInfo) errors :
  view s = CustomerInfoView values errors → customerInfoSchema values ≠ [] →
  dispatch SubmitCustomerInfo s =
  with_view (CustomerInfoView values (parseErrorSchema (customerInfoSchema values) ∅)) s.
Proof.
  intros Hview Hinvalid. unfold dispatch. rewrite Hview.
  unfold CustomerInfoForm.submit, handleSubmit.
  by destruct (customerInfoSchema values).
Qed.

Lemma next_location_customer_valid (s : Wizard) (values : CustomerLocationData.t) errors :
  view s = LocationView customer_location values errors →
  customerLocationSchema values = [] →
  dispatch LocationNext s =
  MultiStepBooking.handleLocationNext
    (Build_MeetingLocationData customer_location None (Some values)) s.
Proof.
  intros Hview Hvalid. unfold dispatch. rewrite Hview.
  unfold MeetingLocation.handleNext, handleSubmit. by rewrite Hvalid.
Qed.

Lemma next_location_customer_invalid (s : Wizard) (values : CustomerLocationData.t) errors :
  view s = LocationView customer_location values errors →
  customerLocationSchema values ≠ [] →
  dispatch LocationNext s =
  with_view (LocationView customer_location values
               (parseErrorSchema (customerLocationSchema values) ∅)) s.
Proof.
  intros Hview Hinvalid. unfold dispatch. rewrite Hview.
  unfold MeetingLocation.handleNext, handleSubmit.
  by destruct (customerLocationSchema values).
Qed.

Lemma next_location_ours (s : Wizard) (values : CustomerLocationData.t) errors :
  view s = LocationView our_location values errors →
  dispatch LocationNext s =
  MultiStepBooking.handleLocationNext
    (Build_MeetingLocationData our_location (Some MeetingLocation.ourLocation) None) s.
Proof. intros Hview. unfold dispatch. by rewrite Hview. Qed.

(** C5: for every input of the CustomerInfo step whose name has at least
    2 characters, whose phone has at least 10 digits and whose e-mail
    passes the e-mail test, Next succeeds: the input is recorded in the
    draft, nothing else of the draft changes, and the wizard is on the
    Services step. *)
Theorem C5_valid_customer_info_advances
    (es : list Event) durationId isMobileView ctx now (values : CustomerInfo) :
  let s := run es (init durationId isMobileView ctx now) in
  currentStep s = Step1 →
  (2 ≤ String.length (name values))%nat →
  (10 ≤ digits (phone values))%nat →
  zod_email (email values) = true →
  let s' := run [InputCustomerInfo values; SubmitCustomerInfo] s in
  currentStep s' = Step2 ∧
  formData s' =
    {| customerInfo := Some values; services := services (formData s);
       location := location (formData s); dateTime := dateTime (formData s) |} ∧
  view s' = mount Step2 (formData s').
Proof.
  intros s Hstep Hname Hphone Hemail s'.
  destruct (reachable_step1_view s) as (v0 & e0 & Hview);
    [apply reachable_start|done|].
  assert (customerInfoSchema values = []) as Hvalid.
  { apply customerInfoSchema_accepts. split_and!; [done| |done].
    pose proof (digits_le_length (phone values)). lia. }
  pose (s1 := dispatch (InputCustomerInfo values) s).
  assert (s1 = with_view (CustomerInfoView values e0) s) as Hs1.
  { unfold s1, dispatch. by rewrite Hview. }
  change s' with (dispatch SubmitCustomerInfo s1).
  rewrite (submit_customerInfo_valid s1 values e0); [|by rewrite Hs1|done].
  rewrite Hs1. unfold MultiStepBooking.handleCustomerInfoNext, setCurrentStep.
  simpl. rewrite Hstep. by case_decide.
Qed.

(** C7: on the Services step, Next with nothing selected changes nothing;
    Next with a selection that is not empty succeeds and records exactly
    the selected ids in the draft; a row is ticked and unticked by
    [toggleService], and only the ids of the catalogue response have a
    row.  With the catalogue [A, B]: nothing selected fails, [A] selected
    succeeds with the selection [A]. *)
Theorem C7_services_step
    (es : list Event) durationId isMobileView ctx now (selected : list string) :
  let s := run es (init durationId isMobileView ctx now) in
  view s = ServicesView selected →
  (selected = [] → dispatch ServicesNext s = s) ∧
  (selected ≠ [] →
   let s' := dispatch ServicesNext s in
   currentStep s' = Step3 ∧
   formData s' =
     {| customerInfo := customerInfo (formData s);
        services := Some {| selectedServices := selected |};
        location := location (formData s); dateTime := dateTime (formData s) |}) ∧
  (∀ id,
     view (dispatch (ToggleService id) s) =
     ServicesView
       (if bool_decide (id ∈ Service.name <$> ServicesSelection.services s)
        then ServicesSelection.toggleService id selected
        else selected)).
Proof.
  intros s Hview.
  assert (currentStep s = Step2) as Hstep.
  { rewrite (reachable_view_step s); [by rewrite Hview|apply reachable_start]. }
  split_and!.
  - intros ->. unfold dispatch. by rewrite Hview.
  - intros Hne s'. unfold s', dispatch. rewrite Hview.
    unfold ServicesSelection.handleNext.
    destruct selected as [|x l]; [done|]. simpl.
    unfold MultiStepBooking.handleServicesNext, setCurrentStep. simpl.
    rewrite Hstep. by case_decide.
  - intros id. unfold dispatch. rewrite Hview. by case_bool_decide.
Qed.

(** C8: on the Location step in the mode customer_location, the
    fields location (3 characters at least), street (3 at least) and
    building (1 at least) are required and apartment is free; Next with a
    street that is missing fails, the step and the draft stay and the
    error "Street name is required" is shown on the field; Next with the
    three fields long enough records them.  In the mode our_location Next
    succeeds whatever the fields hold and records the fixed address. *)
Theorem C8_location_step
    (es : list Event) durationId isMobileView ctx now
    (locType : LocationType) (values : CustomerLocationData.t) errors :
  let s := run es (init durationId isMobileView ctx now) in
  view s = LocationView locType values errors →
  let s' := dispatch LocationNext s in
  (customerLocationSchema values = [] ↔
   (3 ≤ String.length (CustomerLocationData.location values))%nat ∧
   (3 ≤ String.length (CustomerLocationData.street values))%nat ∧
   (1 ≤ String.length (CustomerLocationData.building values))%nat) ∧
  (locType = customer_location → customerLocationSchema values ≠ [] →
   currentStep s' = Step3 ∧ formData s' = formData s) ∧
  (locType = customer_location →
   (String.length (CustomerLocationData.street values) < 3)%nat →
   currentStep s' = Step3 ∧ formData s' = formData s ∧
   reportedErrors (view s') !! "street" = Some "Street name is required") ∧
  (locType = customer_location → customerLocationSchema values = [] →
   currentStep s' = Step4 ∧
   location (formData s') =
     Some (Build_MeetingLocationData customer_location None (Some values))) ∧
  (locType = our_location →
   currentStep s' = Step4 ∧
   location (formData s') =
     Some (Build_MeetingLocationData our_location
             (Some MeetingLocation.ourLocation) None)).
Proof.
  intros s Hview s'.
  assert (currentStep s = Step3) as Hstep.
  { rewrite (reachable_view_step s); [by rewrite Hview|apply reachable_start]. }
  assert (∀ data,
            currentStep (MultiStepBooking.handleLocationNext data s) = Step4 ∧
            location (formData (MultiStepBooking.handleLocationNext data s)) = Some data)
    as Hnext.
  { intros data. unfold MultiStepBooking.handleLocationNext, setCurrentStep.
    simpl. rewrite Hstep. by case_decide. }
  split_and!.
  - apply customerLocationSchema_accepts.
  - intros -> Hinvalid. unfold s'.
    by rewrite (next_location_customer_invalid s values errors).
  - intros -> Hstreet.
    assert (("street", "Street name is required") ∈ customerLocationSchema values)
      as Hin.
    { unfold customerLocationSchema, z_min at 2.
      apply Nat.ltb_lt in Hstreet. rewrite Hstreet.
      rewrite !elem_of_app, list_elem_of_singleton. tauto. }
    unfold s'. rewrite (next_location_customer_invalid s values errors);
      [|done|by intros Hnil; rewrite Hnil in Hin; apply elem_of_nil in Hin].
    split_and!; [done..|]. simpl.
    by apply parseErrorSchema_exact; [apply customerLocationSchema_NoDup|].
  - intros -> Hvalid. unfold s'.
    rewrite (next_location_customer_valid s values errors) by done. apply Hnext.
  - intros ->. unfold s'.
    rewrite (next_location_ours s values errors) by done. apply Hnext.
Qed.

End steps.

(** ** JSON texts *)


Lemma string_app_cons (x : ascii) (a b : string) :
  String x a +:+ b = String x (a +:+ b).
Proof. reflexivity. Qed.

Lemma string_app_nil_l (b : string) : "" +:+ b = b.
Proof. reflexivity. Qed.

Lemma string_app_assoc (a b c : string) : (a +:+ b) +:+ c = a +:+ (b +:+ c).
Proof.
  induction a as [|x a IH]; [reflexivity|].
  rewrite !string_app_cons. by rewrite IH.
Qed.

Lemma escape_cons (c : ascii) (s : string) :
  JS.escape (String c s) = JS.escape_unit c +:+ JS.escape s.
Proof. reflexivity. Qed.

(** Reading back an escaped string gives the string, whatever follows the
    closing quote. *)
Lemma body_escape (s rest : string) :
  JSRead.body (JS.escape s +:+ String JS.quote rest) = Some (s, rest).
Proof.
  induction s as [|c s IH]; [reflexivity|].
  rewrite escape_cons, string_app_assoc.
  destruct c as [[] [] [] [] [] [] [] []];
    match goal with
    | |- context [JS.escape_unit ?c] =>
        let u := eval vm_compute in (JS.escape_unit c) in
        change (JS.escape_unit c) with u
    end;
    rewrite ?string_app_cons, ?string_app_nil_l; cbn; rewrite IH; reflexivity.
Qed.

(** A string literal followed by [rest]. *)
Lemma stringify_string_app (s rest : string) :
  JS.stringify_string s +:+ rest = String JS.quote (JS.escape s +:+ String JS.quote rest).
Proof.
  unfold JS.stringify_string.
  rewrite !string_app_cons, string_app_assoc. by rewrite string_app_cons.
Qed.

Lemma stringify_string_app_inj (s1 s2 rest1 rest2 : string) :
  JS.stringify_string s1 +:+ rest1 = JS.stringify_string s2 +:+ rest2 →
  s1 = s2 ∧ rest1 = rest2.
Proof.
  rewrite !stringify_string_app. intros [= Heq].
  apply (f_equal JSRead.body) in Heq. rewrite !body_escape in Heq.
  by injection Heq.
Qed.

Lemma join_cons_app (x : string) (l : list string) (closing : string) :
  JS.join "," (x :: l) +:+ closing =
  x +:+ match l with
        | [] => closing
        | _ :: _ => "," +:+ (JS.join "," l +:+ closing)
        end.
Proof.
  destruct l as [|y l]; [reflexivity|].
  change (JS.join "," (x :: y :: l)) with (x +:+ "," +:+ JS.join "," (y :: l)).
  by rewrite !string_app_assoc.
Qed.

Lemma join_strings_inj (l1 l2 : list string) :
  JS.join "," (JS.stringify_string <$> l1) +:+ "]"
  = JS.join "," (JS.stringify_string <$> l2) +:+ "]" →
  l1 = l2.
Proof.
  revert l2. induction l1 as [|x1 r1 IH]; intros [|x2 r2] Heq; [done| | |].
  - rewrite fmap_cons, join_cons_app, stringify_string_app in Heq. discriminate Heq.
  - rewrite fmap_cons, join_cons_app, stringify_string_app in Heq. discriminate Heq.
  - rewrite !fmap_cons, !join_cons_app in Heq.
    apply stringify_string_app_inj in Heq as [-> Hrest]. f_equal.
    destruct r1 as [|y1 r1], r2 as [|y2 r2]; [done| | |].
    + discriminate Hrest.
    + discriminate Hrest.
    + apply IH. by injection Hrest.
Qed.

Lemma stringify_strings_inj (selected1 selected2 : list string) :
  JS.stringify_strings selected1 = JS.stringify_strings selected2 →
  selected1 = selected2.
Proof.
  unfold JS.stringify_strings. rewrite !string_app_cons, !string_app_nil_l.
  intros [= Heq]. by apply join_strings_inj.
Qed.

Lemma entry_app_inj (key value1 value2 rest1 rest2 : string) :
  (JS.stringify_string key +:+ ":" +:+ JS.stringify_string value1) +:+ rest1
  = (JS.stringify_string key +:+ ":" +:+ JS.stringify_string value2) +:+ rest2 →
  value1 = value2 ∧ rest1 = rest2.
Proof.
  rewrite !string_app_assoc. intros Heq.
  apply stringify_string_app_inj in Heq as [_ Heq].
  rewrite !stringify_string_app in Heq.
  rewrite !string_app_cons, !string_app_nil_l in Heq. injection Heq as Heq.
  apply (f_equal JSRead.body) in Heq. rewrite !body_escape in Heq.
  by injection Heq.
Qed.

Lemma customerLocationJSON_shape (c : CustomerLocationData.t) :
  customerLocationJSON c =
  "{" +:+
  ((JS.stringify_string "location" +:+ ":" +:+
    JS.stringify_string (CustomerLocationData.location c)) +:+
   ("," +:+
    ((JS.stringify_string "street" +:+ ":" +:+
      JS.stringify_string (CustomerLocationData.street c)) +:+
     ("," +:+
      ((JS.stringify_string "building" +:+ ":" +:+
        JS.stringify_string (CustomerLocationData.building c)) +:+
       match CustomerLocationData.apartment c with
       | Some a =>
           "," +:+
           ((JS.stringify_string "apartment" +:+ ":" +:+ JS.stringify_string a) +:+ "}")
       | None => "}"
       end))))).
Proof.
  destruct c as [l s b [a|]]; unfold customerLocationJSON, JS.stringify_object;
    cbn [omap list_omap fmap option_fmap option_map CustomerLocationData.location
         CustomerLocationData.street CustomerLocationData.building
         CustomerLocationData.apartment];
    rewrite !join_cons_app; reflexivity.
Qed.

Lemma customerLocationJSON_inj (c1 c2 : CustomerLocationData.t) :
  customerLocationJSON c1 = customerLocationJSON c2 → c1 = c2.
Proof.
  rewrite !customerLocationJSON_shape.
  destruct c1 as [l1 s1 b1 a1], c2 as [l2 s2 b2 a2].
  cbn [CustomerLocationData.location CustomerLocationData.street
       CustomerLocationData.building CustomerLocationData.apartment].
  intros Heq. apply (inj (String.app "{")) in Heq.
  apply entry_app_inj in Heq as [-> Heq]. apply (inj (String.app ",")) in Heq.
  apply entry_app_inj in Heq as [-> Heq]. apply (inj (String.app ",")) in Heq.
  apply entry_app_inj in Heq as [-> Heq].
  destruct a1 as [a1|], a2 as [a2|]; [|discriminate Heq..|done].
  apply (inj (String.app ",")) in Heq.
  by apply entry_app_inj in Heq as [-> _].
Qed.

(** ** Submission *)

Section submission.
Context `{Platform}.

(** A slot on screen is a slot of the response in use, and its label
    could be formatted. *)
Lemma shownSlots_elem (s : Wizard) (slot : Slot.t) :
  slot ∈ DateTimeSelection.shownSlots s →
  slot ∈ all_available_slots_for_data (DateTimeSelection.meetingData s) ∧
  is_Some (DateTimeSelection.formatTimeSlot s slot).
Proof.
  unfold DateTimeSelection.shownSlots. cbv zeta.
  destruct (forallb _ _) eqn:Hall; [|intros Hin; by apply elem_of_nil in Hin].
  intros Hin. split; [done|].
  apply Is_true_true_2, forallb_True in Hall.
  rewrite Forall_forall in Hall. specialize (Hall slot Hin).
  by apply bool_decide_unpack in Hall.
Qed.

(** With an empty time zone no slot is on screen. *)
Lemma shownSlots_empty_zone (s : Wizard) :
  AppContext.timeZone (context s) = "" → DateTimeSelection.shownSlots s = [].
Proof.
  intros Hzone. unfold DateTimeSelection.shownSlots. cbv zeta.
  destruct (all_available_slots_for_data (DateTimeSelection.meetingData s))
    as [|slot slots]; [done|].
  simpl. rewrite bool_decide_eq_false_2; [done|].
  unfold DateTimeSelection.formatTimeSlot.
  rewrite Hzone, intlFormatTime_empty_zone. by intros [? ?].
Qed.

(** Choosing a slot with the three earlier parts in the draft posts one
    request, built from the draft and the slot. *)
Lemma slotSelect_posts (s : Wizard) (slot : Slot.t) ci sv loc :
  view s = DateTimeView → slot ∈ DateTimeSelection.shownSlots s →
  customerInfo (formData s) = Some ci → services (formData s) = Some sv →
  location (formData s) = Some loc →
  dispatch (SlotSelect slot) s =
  bookAppointment
    (MultiStepBooking.meetingData (durationId s) ci sv loc (chosen slot s))
    (setFormData
       {| customerInfo := Some ci; services := Some sv; location := Some loc;
          dateTime := Some (chosen slot s) |}
       (DateTimeSelection.setSelectedSlot slot s)).
Proof.
  intros Hview Hslot Hci Hsv Hloc. unfold dispatch. rewrite Hview.
  rewrite bool_decide_eq_true_2 by done.
  unfold DateTimeSelection.handleSlotSelect, MultiStepBooking.handleDateTimeNext,
    MultiStepBooking.submitBooking. simpl.
  by rewrite Hci, Hsv, Hloc.
Qed.

(** Only the choice of a slot posts a request, and it posts one. *)
Lemma posted_dispatch (e : Event) (s : Wizard) :
  posted (dispatch e s) = posted s ∨
  ∃ slot ci sv loc,
    e = SlotSelect slot ∧ view s = DateTimeView ∧
    slot ∈ DateTimeSelection.shownSlots s ∧
    customerInfo (formData s) = Some ci ∧ services (formData s) = Some sv ∧
    location (formData s) = Some loc ∧
    posted (dispatch e s) =
      posted s ++ [MultiStepBooking.meetingData (durationId s) ci sv loc (chosen slot s)] ∧
    loading (dispatch e s) = true.
Proof.
  destruct e as [values| |serviceName| |t|values| |d|tz| |slot| |message|err|k m|l];
    try (left; handlers; repeat case_match; reflexivity);
    try (left; unfold dispatch, retreat, MultiStepBooking.onBack, setCurrentStep;
         destruct (view s), (currentStep s), (isMobileView s); simpl;
         try case_decide; reflexivity).
  destruct (view s) eqn:Hview; try (left; unfold dispatch; by rewrite Hview).
    destruct (decide (slot ∈ DateTimeSelection.shownSlots s)) as [Hslot|Hslot];
      [|left; unfold dispatch; rewrite Hview; by rewrite bool_decide_eq_false_2].
    destruct (customerInfo (formData s)) as [ci|] eqn:Hci;
      [destruct (services (formData s)) as [sv|] eqn:Hsv;
       [destruct (location (formData s)) as [loc|] eqn:Hloc|]|].
    + right. exists slot, ci, sv, loc.
      rewrite (slotSelect_posts s slot ci sv loc) by done. by split_and!.
    + left. unfold dispatch. rewrite Hview, bool_decide_eq_true_2 by done.
      unfold DateTimeSelection.handleSlotSelect, MultiStepBooking.handleDateTimeNext,
        MultiStepBooking.submitBooking. simpl. by rewrite Hci, Hsv, Hloc.
    + left. unfold dispatch. rewrite Hview, bool_decide_eq_true_2 by done.
      unfold DateTimeSelection.handleSlotSelect, MultiStepBooking.handleDateTimeNext,
        MultiStepBooking.submitBooking. simpl. by rewrite Hci, Hsv.
    + left. unfold dispatch. rewrite Hview, bool_decide_eq_true_2 by done.
      unfold DateTimeSelection.handleSlotSelect, MultiStepBooking.handleDateTimeNext,
        MultiStepBooking.submitBooking. simpl. by rewrite Hci.
Qed.

Lemma meetingData_locationDetail durationId ci sv loc dt :
  locationShape loc →
  locationDetailMatches (MultiStepBooking.meetingData durationId ci sv loc dt).
Proof.
  unfold locationShape, locationDetailMatches. simpl.
  destruct (locationType loc) eqn:Htype; simpl.
  - intros [Hours Hcust]. rewrite ?Hours, ?Hcust. by split; [eexists|].
  - intros [Hours (c & Hcust & _)]. rewrite ?Hours, ?Hcust. by split; [eexists|].
Qed.

(** C10: in every request the wizard has posted, exactly one of the two
    location details is defined, the one of the declared location type:
    [our_location] is defined and [customer_location] is [undefined] for
    the type our_location, and the other way round for the type
    customer_location. *)
Theorem C10_location_detail_matches_type
    (es : list Event) durationId isMobileView ctx now :
  Forall locationDetailMatches (posted (run es (init durationId isMobileView ctx now))).
Proof.
  induction es as [|e es IH] using rev_ind; [by constructor|].
  rewrite run_snoc. set (s := run es _) in *.
  destruct (posted_dispatch e s)
    as [->|(slot & ci & sv & loc & _ & _ & _ & _ & _ & Hloc & -> & _)]; [done|].
  apply Forall_app. split; [done|]. apply Forall_singleton.
  apply meetingData_locationDetail.
  by apply (wizardInv_reachable s (reachable_start _ _ _ _ _)).
Qed.

Lemma meetingData_customer_location durationId ci sv loc dt :
  MeetingData.customer_location
    (MultiStepBooking.meetingData durationId ci sv loc dt)
  = if decide (locationType loc = customer_location)
    then customerLocationJSON <$> customerLocation loc else None.
Proof. reflexivity. Qed.






End submission.

(** ** Failure, the flag, Back and late responses *)

Section behaviour.
Context `{Platform}.

(** C3: when a submission fails, the draft is as it was, the wizard is on
    the step it was on (the DateTime step stays the DateTime step), no
    result is recorded and the alert is not opened, nothing is posted
    again, and one toast is raised: it carries the message parsed from the
    server's error when there is one that is not empty, and "Something
    went wrong" otherwise. *)
Theorem C3_failed_submission_keeps_draft (s : Wizard) (err : FrappeError) :
  (0 < outstanding s)%nat →
  let s' := dispatch (BookingRejected err) s in
  formData s' = formData s ∧
  currentStep s' = currentStep s ∧
  (currentStep s = Step4 → currentStep s' = Step4) ∧
  view s' = view s ∧ context s' = context s ∧
  bookingResponse s' = bookingResponse s ∧
  appointmentScheduled s' = appointmentScheduled s ∧
  ((∀ r, ¬ confirmed s r) → ∀ r, ¬ confirmed s' r) ∧
  posted s' = posted s ∧
  toasts s' =
    toasts s ++
    [match parseFrappeErrorMsg err with
     | Some message =>
         if decide (message = "") then "Something went wrong" else message
     | None => "Something went wrong"
     end].
Proof.
  intros Hout s'. unfold s', dispatch.
  apply Nat.ltb_lt in Hout. rewrite Hout.
  unfold MultiStepBooking.onRejected, confirmed. simpl.
  do 7 (split; [done|]). split; [done|]. split; [done|].
  f_equal. f_equal. unfold JS.or_else.
  destruct (parseFrappeErrorMsg err) as [[|c m]|]; [done| |done].
  simpl. by destruct (decide (String c m = "")).
Qed.

(** What an event does to the flag and to the count of open requests. *)
Lemma flag_dispatch (e : Event) (s : Wizard) :
  (loading (dispatch e s) = loading s ∧
   outstanding (dispatch e s) = outstanding s) ∨
  ((∃ slot, e = SlotSelect slot) ∧ loading (dispatch e s) = true ∧
   outstanding (dispatch e s) = S (outstanding s)) ∨
  ((0 < outstanding s)%nat ∧ loading (dispatch e s) = false ∧
   outstanding (dispatch e s) = pred (outstanding s)).
Proof.
  destruct e as [values| |serviceName| |t|values| |d|tz| |slot| |message|err|k m|l];
    try (left; handlers; repeat case_match; by split);
    try (left; unfold dispatch, retreat, MultiStepBooking.onBack, setCurrentStep;
         destruct (view s), (currentStep s), (isMobileView s); simpl;
         try case_decide; by split).
  - destruct (posted_dispatch (SlotSelect slot) s)
      as [Hsame|(slot' & ci & sv & loc & [= <-] & Hview & Hslot & Hci & Hsv & Hloc & _)].
    + left. revert Hsame. unfold dispatch.
      destruct (view s); try done. case_bool_decide; [|done].
      unfold DateTimeSelection.handleSlotSelect, MultiStepBooking.handleDateTimeNext,
        MultiStepBooking.submitBooking. simpl.
      repeat case_match; try done. simpl. intros Happ.
      apply (f_equal length) in Happ. rewrite length_app in Happ. simpl in Happ. lia.
    + right. left. split; [by eexists|].
      by rewrite (slotSelect_posts s slot ci sv loc).
  - unfold dispatch. destruct (0 <? outstanding s)%nat eqn:Hout.
    + right. right. apply Nat.ltb_lt in Hout. by destruct (view s).
    + left. by destruct (view s).
  - unfold dispatch. destruct (0 <? outstanding s)%nat eqn:Hout.
    + right. right. apply Nat.ltb_lt in Hout. by destruct (view s).
    + left. by destruct (view s).
Qed.

Lemma flag_run (es : list Event) (s : Wizard) :
  (loading s = true → outstanding s = 1%nat) →
  (loading s = false → outstanding s = 0%nat) →
  respectsOverlay es s = true →
  (loading (run es s) = true → outstanding (run es s) = 1%nat) ∧
  (loading (run es s) = false → outstanding (run es s) = 0%nat).
Proof.
  revert s. induction es as [|e es IH]; intros s Hon Hoff Hok; [done|].
  simpl in Hok. apply andb_true_iff in Hok as [He Hrest].
  change (run (e :: es) s) with (run es (dispatch e s)).
  apply IH; [| |done].
  - destruct (flag_dispatch e s) as [[Hl Ho]|[([slot ->] & Hl & Ho)|(Hpos & Hl & Ho)]].
    + rewrite Hl, Ho. done.
    + intros _. rewrite Ho. apply negb_true_iff in He.
      unfold MultiStepBooking.overlayShown in He. by rewrite Hoff.
    + rewrite Hl. done.
  - destruct (flag_dispatch e s) as [[Hl Ho]|[([slot ->] & Hl & Ho)|(Hpos & Hl & Ho)]].
    + rewrite Hl, Ho. done.
    + rewrite Hl. done.
    + intros _. rewrite Ho. destruct (loading s).
      * by rewrite Hon.
      * rewrite Hoff in Hpos by done. lia.
Qed.

(** C2, as the code has it: the wizard holds a flag, [loading], that a
    submission raises and its answer lowers, and that shows the overlay
    with the spinner; the handler of the slot buttons does not read it.
    An event posts at most one request, only the choice of a slot posts
    one (nothing is sent again by itself after a failure), and it raises
    the flag.  In a run in which no slot is chosen while the overlay is
    shown, at most one request is unanswered at any time and the flag is
    up exactly while one is. *)
Theorem C2_flag_and_single_submission
    (es : list Event) dur mobile ctx now :
  let s := run es (init dur mobile ctx now) in
  (∀ e,
     posted (dispatch e s) = posted s ∨
     ∃ slot m,
       e = SlotSelect slot ∧ posted (dispatch e s) = posted s ++ [m] ∧
       loading (dispatch e s) = true ∧
       MultiStepBooking.overlayShown (dispatch e s) = true) ∧
  (respectsOverlay es (init dur mobile ctx now) = true →
   (outstanding s ≤ 1)%nat ∧ (loading s = true ↔ outstanding s = 1%nat)).
Proof.
  intros s. split.
  - intros e.
    destruct (posted_dispatch e s)
      as [Hsame|(slot & ci & sv & loc & -> & _ & _ & _ & _ & _ & Hpost & Hload)];
      [by left|right].
    by eexists _, _.
  - intros Hok.
    destruct (flag_run es (init dur mobile ctx now)) as [Hon Hoff];
      [done|done|done|]. fold s in Hon, Hoff.
    destruct (loading s) eqn:Hl.
    + rewrite Hon by done. split; [lia|done].
    + rewrite Hoff by done. split; [lia|]. split; [done|lia].
Qed.

(** C4, as the code has it: when the check of the step on screen finds an
    invalid field, Next leaves the step and the draft as they are.  The
    forms of the CustomerInfo and Location steps then show one error for
    each invalid field, with the message of its schema; the Services step
    shows no error: its Next button is disabled and [handleNext] does
    nothing. *)
Theorem C4_invalid_input_changes_nothing
    (es : list Event) dur mobile ctx now :
  let s := run es (init dur mobile ctx now) in
  invalidFields (view s) ≠ [] →
  currentStep (advance s) = currentStep s ∧
  formData (advance s) = formData s ∧
  match view s with
  | ServicesView selected =>
      advance s = s ∧ ServicesSelection.nextDisabled selected = true
  | _ =>
      let errors := reportedErrors (view (advance s)) in
      size errors = length (invalidFields (view s)) ∧
      dom errors = list_to_set (C := gset string) (invalidFields (view s)) ∧
      ∀ path message,
        errors !! path = Some message ↔ (path, message) ∈ viewIssues (view s)
  end.
Proof.
  intros s Hinvalid. unfold advance.
  destruct (view s) as [values errors|selected|[] values errors|] eqn:Hview;
    simpl in Hinvalid; try done.
  - assert (customerInfoSchema values ≠ []) as Hne
      by (intros Hnil; by rewrite Hnil in Hinvalid).
    rewrite (submit_customerInfo_invalid s values errors) by done. simpl.
    pose proof (parseErrorSchema_exact _ (customerInfoSchema_NoDup values))
      as (Hsize & Hdom & Hlookup).
    split_and!; try done. by rewrite length_fmap.
  - destruct selected; [|done]. unfold dispatch. by rewrite Hview.
  - assert (customerLocationSchema values ≠ []) as Hne
      by (intros Hnil; by rewrite Hnil in Hinvalid).
    rewrite (next_location_customer_invalid s values errors) by done. simpl.
    pose proof (parseErrorSchema_exact _ (customerLocationSchema_NoDup values))
      as (Hsize & Hdom & Hlookup).
    split_and!; try done. by rewrite length_fmap.
Qed.

(** C6, as the code has it: the Back button of step n, for n above 1,
    puts the wizard on step n-1; the first step has no Back button.  Back
    leaves the draft and the shared date, slot and time zone as they are,
    so what earlier Next actions recorded, for the step that is left too,
    is kept and fills the component that mounts; what was typed or ticked
    on the step that is left without a Next is not kept with it. *)
Theorem C6_retreat_keeps_draft (s : Wizard) :
  (currentStep s = Step1 → MultiStepBooking.onBack Step1 = None ∧ retreat s = s) ∧
  (currentStep s ≠ Step1 →
   S (step_number (currentStep (retreat s))) = step_number (currentStep s) ∧
   view (retreat s) = mount (currentStep (retreat s)) (formData s)) ∧
  formData (retreat s) = formData s ∧
  context (retreat s) = context s ∧
  (∀ ci, customerInfo (formData s) = Some ci →
         entered (mount Step1 (formData (retreat s))) = EnteredCustomerInfo ci) ∧
  (∀ sv, services (formData s) = Some sv →
         entered (mount Step2 (formData (retreat s))) =
         EnteredServices (selectedServices sv)) ∧
  (∀ loc c, location (formData s) = Some loc → customerLocation loc = Some c →
            is_Some (CustomerLocationData.apartment c) →
            entered (mount Step3 (formData (retreat s))) =
            EnteredLocation (locationType loc) c).
Proof.
  assert (formData (retreat s) = formData s) as Hfd.
  { unfold retreat, MultiStepBooking.onBack, setCurrentStep.
    destruct (currentStep s); simpl; try case_decide; done. }
  split_and!.
  - intros Hstep. unfold retreat. by rewrite Hstep.
  - intros Hstep. unfold retreat, MultiStepBooking.onBack, setCurrentStep.
    destruct (currentStep s) eqn:Hs; simpl; rewrite ?Hs; simpl; done.
  - done.
  - unfold retreat, MultiStepBooking.onBack, setCurrentStep.
    destruct (currentStep s); simpl; try case_decide; done.
  - intros ci Hci. rewrite Hfd. simpl. rewrite Hci. simpl.
    destruct ci as [[|? ?] [|? ?] [|? ?]]; done.
  - intros sv Hsv. rewrite Hfd. simpl. by rewrite Hsv.
  - intros loc [l st b ap] Hloc Hc [a Hap]. rewrite Hfd. simpl in *. subst ap.
    rewrite Hloc. simpl. rewrite Hc. simpl.
    destruct l, st, b, a; done.
Qed.

(** C9: a response of the slots request is kept under the key of the
    request that asked for it, and the step shows and offers only what is
    kept under the key of the date, time zone and duration now selected.
    So a response never touches the draft or the step, whatever is on
    screen when it comes in, and a response for another key than the one
    now selected does not change the slots on offer.  When the slots were
    asked for the date D1 and the user clicks a day D2 of another date
    before choosing a slot, the response for D1 that comes in afterwards
    changes neither the slots shown for D2 nor the draft; and a slot the
    user then chooses is one kept for D2 and is recorded with the date
    D2. *)
Theorem C9_late_slots_response_discarded
    (s : Wizard) (d1 d2 : Date) (m1 : SlotsMessage) :
  (∀ k m,
     let s' := dispatch (SlotsArrived k m) s in
     formData s' = formData s ∧ currentStep s' = currentStep s ∧
     context s' = context s ∧ view s' = view s ∧
     (k ≠ DateTimeSelection.requestKey s →
      DateTimeSelection.data s' = DateTimeSelection.data s ∧
      DateTimeSelection.shownSlots s' = DateTimeSelection.shownSlots s)) ∧
  (view s = DateTimeView →
   AppContext.selectedDate (context s) = d1 →
   formatDate d1 ≠ formatDate d2 →
   let k1 := DateTimeSelection.requestKey s in
   let s2 := dispatch (DayClick d2) s in
   let s3 := dispatch (SlotsArrived k1 m1) s2 in
   DateTimeSelection.data s3 = DateTimeSelection.data s2 ∧
   DateTimeSelection.shownSlots s3 = DateTimeSelection.shownSlots s2 ∧
   DateTimeSelection.data s3 = slotsCache s !! DateTimeSelection.requestKey s2 ∧
   formData s3 = formData s ∧
   (∀ slot,
      let s4 := dispatch (SlotSelect slot) s3 in
      formData s4 = formData s ∨
      (slot ∈ DateTimeSelection.shownSlots s2 ∧
       dateTime (formData s4) =
         Some {| date := d2; startTime := Slot.start_time slot;
                 endTime := Slot.end_time slot;
                 timeZone := AppContext.timeZone (context s) |}))).
Proof.
  assert (∀ (s0 : Wizard) k m,
            k ≠ DateTimeSelection.requestKey s0 →
            DateTimeSelection.data (storeSlots k m s0) = DateTimeSelection.data s0)
    as Hother.
  { intros s0 k m Hk. unfold DateTimeSelection.data.
    change (DateTimeSelection.requestKey (storeSlots k m s0))
      with (DateTimeSelection.requestKey s0).
    simpl. by rewrite lookup_insert_ne. }
  assert (∀ (s0 : Wizard) k m, dispatch (SlotsArrived k m) s0 = storeSlots k m s0)
    as Harrived.
  { intros s0 k m. unfold dispatch. by destruct (view s0). }
  split.
  - intros k m s'. unfold s'. rewrite Harrived.
    do 4 (split; [done|]). intros Hk.
    unfold DateTimeSelection.shownSlots, DateTimeSelection.meetingData.
    by rewrite Hother.
  - intros Hview Hd1 Hne k1 s2 s3.
    assert (k1 ≠ DateTimeSelection.requestKey s2) as Hkey.
    { unfold k1, s2, dispatch. rewrite Hview.
      unfold DateTimeSelection.requestKey. simpl. rewrite Hd1. congruence. }
    assert (s2 = DateTimeSelection.onDayClick d2 s) as Hs2
      by (unfold s2, dispatch; by rewrite Hview).
    assert (s3 = storeSlots k1 m1 s2) as Hs3 by apply Harrived.
    assert (DateTimeSelection.data s3 = DateTimeSelection.data s2) as Hdata
      by (rewrite Hs3; by apply Hother).
    split_and!.
    + done.
    + unfold DateTimeSelection.shownSlots, DateTimeSelection.meetingData.
      by rewrite Hdata.
    + rewrite Hdata. by rewrite Hs2.
    + rewrite Hs3, Hs2. done.
    + intros slot s4.
      assert (view s3 = DateTimeView) as Hview3 by (rewrite Hs3, Hs2; done).
      destruct (decide (slot ∈ DateTimeSelection.shownSlots s3)) as [Hin|Hout].
      * right. split.
        { revert Hin. unfold DateTimeSelection.shownSlots, DateTimeSelection.meetingData.
          by rewrite Hdata. }
        unfold s4, dispatch. rewrite Hview3, bool_decide_eq_true_2 by done.
        unfold DateTimeSelection.handleSlotSelect, MultiStepBooking.handleDateTimeNext,
          MultiStepBooking.submitBooking. simpl.
        rewrite Hs3, Hs2. simpl. repeat case_match; done.
      * left. unfold s4, dispatch. rewrite Hview3, bool_decide_eq_false_2 by done.
        rewrite Hs3, Hs2. done.
Qed.

End behaviour.

(** ** The properties on concrete runs *)



(** Two slots chosen one after the other with no answer in between: the
    second choice posts a second request while the first is unanswered. *)
Lemma C2_second_submission_while_outstanding :
  (0 < outstanding Demo.submitting)%nat ∧
  length (posted Demo.submitting) = 1%nat ∧
  length (posted (@dispatch Demo.platform (SlotSelect Demo.slot11) Demo.submitting))
    = 2%nat ∧
  outstanding (@dispatch Demo.platform (SlotSelect Demo.slot11) Demo.submitting)
    = 2%nat ∧
  ¬ @singleFlight Demo.platform Demo.submitting (SlotSelect Demo.slot11).
Proof.
  assert (0 < outstanding Demo.submitting)%nat as Hout by (vm_compute; lia).
  split; [exact Hout|]. split; [vm_compute; reflexivity|].
  split; [vm_compute; reflexivity|]. split; [vm_compute; reflexivity|].
  intros Hsingle. specialize (Hsingle Hout).
  apply (f_equal length) in Hsingle. vm_compute in Hsingle. discriminate Hsingle.
Qed.

Lemma C2_flag_and_single_submission_witness :
  @respectsOverlay Demo.platform Demo.toSubmitting (init "30-min" false Demo.ctx 0%Z)
    = true ∧
  (outstanding (demoRun Demo.toSubmitting) ≤ 1)%nat ∧
  (loading (demoRun Demo.toSubmitting) = true ↔
   outstanding (demoRun Demo.toSubmitting) = 1%nat).
Proof.
  assert (@respectsOverlay Demo.platform Demo.toSubmitting
            (init "30-min" false Demo.ctx 0%Z) = true) as Hok
    by (vm_compute; reflexivity).
  split; [exact Hok|].
  exact (proj2 (@C2_flag_and_single_submission Demo.platform Demo.toSubmitting
                  "30-min" false Demo.ctx 0%Z) Hok).
Defined.

Lemma C3_failed_submission_keeps_draft_witness :
  (0 < outstanding (demoRun Demo.toSubmitting))%nat ∧
  formData (@dispatch Demo.platform (BookingRejected Demo.slotTaken)
              (demoRun Demo.toSubmitting))
    = formData (demoRun Demo.toSubmitting) ∧
  currentStep (@dispatch Demo.platform (BookingRejected Demo.slotTaken)
                 (demoRun Demo.toSubmitting))
    = currentStep (demoRun Demo.toSubmitting) ∧
  toasts (@dispatch Demo.platform (BookingRejected Demo.slotTaken)
            (demoRun Demo.toSubmitting))
    = ["Slot already booked"].
Proof.
  assert (0 < outstanding (demoRun Demo.toSubmitting))%nat as Hout
    by (vm_compute; lia).
  destruct (@C3_failed_submission_keeps_draft Demo.platform
              (demoRun Demo.toSubmitting) Demo.slotTaken Hout)
    as (Hdraft & Hstep & _).
  split; [exact Hout|]. split; [exact Hdraft|]. split; [exact Hstep|].
  vm_compute. reflexivity.
Defined.

(** On the Services step with nothing selected the check finds the
    selection invalid and Next shows no error. *)
Lemma C4_services_step_reports_no_error :
  @invalidFields Demo.platform (view Demo.atServices) = ["selectedServices"] ∧
  reportedErrors (view (@advance Demo.platform Demo.atServices)) = ∅ ∧
  ¬ @advanceReportsEachInvalidField Demo.platform Demo.atServices.
Proof.
  split; [vm_compute; reflexivity|]. split; [vm_compute; reflexivity|].
  intros Hclaim. destruct Hclaim as (_ & _ & Hsize); [vm_compute; discriminate|].
  vm_compute in Hsize. discriminate Hsize.
Qed.

Lemma C4_invalid_input_changes_nothing_witness :
  @invalidFields Demo.platform (view (demoRun Demo.toLocationNoStreet)) ≠ [] ∧
  currentStep (@advance Demo.platform (demoRun Demo.toLocationNoStreet))
    = currentStep (demoRun Demo.toLocationNoStreet) ∧
  formData (@advance Demo.platform (demoRun Demo.toLocationNoStreet))
    = formData (demoRun Demo.toLocationNoStreet) ∧
  size (reportedErrors (view (@advance Demo.platform (demoRun Demo.toLocationNoStreet))))
    = 1%nat ∧
  reportedErrors (view (@advance Demo.platform (demoRun Demo.toLocationNoStreet)))
    !! "street" = Some "Street name is required".
Proof.
  assert (@invalidFields Demo.platform (view (demoRun Demo.toLocationNoStreet)) ≠ [])
    as Hinvalid by (vm_compute; discriminate).
  pose proof (@C4_invalid_input_changes_nothing Demo.platform Demo.toLocationNoStreet
                "30-min" false Demo.ctx 0%Z Hinvalid) as (Hstep & Hdraft & _).
  split; [exact Hinvalid|]. split; [exact Hstep|]. split; [exact Hdraft|].
  split; vm_compute; reflexivity.
Defined.

Lemma C5_valid_customer_info_advances_witness :
  currentStep (demoRun []) = Step1 ∧
  (2 ≤ String.length (name Demo.amal))%nat ∧ (10 ≤ digits (phone Demo.amal))%nat ∧
  @zod_email Demo.platform (email Demo.amal) = true ∧
  currentStep (@run Demo.platform [InputCustomerInfo Demo.amal; SubmitCustomerInfo]
                 (demoRun [])) = Step2 ∧
  formData (@run Demo.platform [InputCustomerInfo Demo.amal; SubmitCustomerInfo]
              (demoRun [])) =
    {| customerInfo := Some Demo.amal; services := services (formData (demoRun []));
       location := location (formData (demoRun []));
       dateTime := dateTime (formData (demoRun [])) |}.
Proof.
  assert (currentStep (demoRun []) = Step1) as Hstep by reflexivity.
  assert (2 ≤ String.length (name Demo.amal))%nat as Hname by (vm_compute; lia).
  assert (10 ≤ digits (phone Demo.amal))%nat as Hphone by (vm_compute; lia).
  assert (@zod_email Demo.platform (email Demo.amal) = true) as Hemail
    by (vm_compute; reflexivity).
  pose proof (@C5_valid_customer_info_advances Demo.platform [] "30-min" false
                Demo.ctx 0%Z Demo.amal Hstep Hname Hphone Hemail)
    as (Hnext & Hdraft & _).
  split; [exact Hstep|]. split; [exact Hname|]. split; [exact Hphone|].
  split; [exact Hemail|]. split; [exact Hnext|exact Hdraft].
Defined.

(** [A] ticked on the Services step and Back pressed: the tick is in the
    draft neither before nor after, and coming forward again shows the
    step with nothing selected. *)
Lemma C6_back_drops_unsaved_selection :
  view Demo.atServicesA = ServicesView ["A"] ∧
  currentStep (retreat Demo.atServicesA) = Step1 ∧
  services (formData (retreat Demo.atServicesA)) = None ∧
  view (@dispatch Demo.platform SubmitCustomerInfo (retreat Demo.atServicesA))
    = ServicesView [] ∧
  ¬ retreatKeepsEntered Demo.atServicesA.
Proof.
  split; [vm_compute; reflexivity|]. split; [vm_compute; reflexivity|].
  split; [vm_compute; reflexivity|]. split; [vm_compute; reflexivity|].
  intros Hkeeps. vm_compute in Hkeeps. discriminate Hkeeps.
Qed.

Lemma C6_retreat_keeps_draft_witness :
  currentStep (demoRun Demo.toLocation) ≠ Step1 ∧
  S (step_number (currentStep (retreat (demoRun Demo.toLocation))))
    = step_number (currentStep (demoRun Demo.toLocation)) ∧
  formData (retreat (demoRun Demo.toLocation)) = formData (demoRun Demo.toLocation) ∧
  view (retreat (demoRun Demo.toLocation)) = ServicesView ["A"].
Proof.
  assert (currentStep (demoRun Demo.toLocation) ≠ Step1) as Hstep
    by (vm_compute; discriminate).
  destruct (C6_retreat_keeps_draft (demoRun Demo.toLocation))
    as (_ & Hback & Hdraft & _).
  split; [exact Hstep|]. split; [exact (proj1 (Hback Hstep))|].
  split; [exact Hdraft|]. vm_compute. reflexivity.
Defined.

Lemma C7_services_step_witness :
  view (demoRun Demo.toServices) = ServicesView [] ∧
  @dispatch Demo.platform ServicesNext (demoRun Demo.toServices)
    = demoRun Demo.toServices ∧
  view (demoRun Demo.toServicesA) = ServicesView ["A"] ∧
  currentStep (@dispatch Demo.platform ServicesNext (demoRun Demo.toServicesA))
    = Step3 ∧
  services (formData (@dispatch Demo.platform ServicesNext (demoRun Demo.toServicesA)))
    = Some {| selectedServices := ["A"] |}.
Proof.
  assert (view (demoRun Demo.toServices) = ServicesView []) as Hnone
    by (vm_compute; reflexivity).
  assert (view (demoRun Demo.toServicesA) = ServicesView ["A"]) as Hone
    by (vm_compute; reflexivity).
  pose proof (@C7_services_step Demo.platform Demo.toServices "30-min" false
                Demo.ctx 0%Z [] Hnone) as (Hfails & _ & _).
  pose proof (@C7_services_step Demo.platform Demo.toServicesA "30-min" false
                Demo.ctx 0%Z ["A"] Hone) as (_ & Hsucceeds & _).
  assert (["A"] ≠ @nil string) as Hne by discriminate.
  split; [exact Hnone|]. split; [exact (Hfails eq_refl)|]. split; [exact Hone|].
  split; [exact (proj1 (Hsucceeds Hne))|]. vm_compute. reflexivity.
Defined.

Lemma C8_location_step_witness :
  view (demoRun Demo.toLocationNoStreet)
    = LocationView customer_location Demo.noStreet ∅ ∧
  (String.length (CustomerLocationData.street Demo.noStreet) < 3)%nat ∧
  currentStep (@dispatch Demo.platform LocationNext (demoRun Demo.toLocationNoStreet))
    = Step3 ∧
  formData (@dispatch Demo.platform LocationNext (demoRun Demo.toLocationNoStreet))
    = formData (demoRun Demo.toLocationNoStreet) ∧
  reportedErrors
    (view (@dispatch Demo.platform LocationNext (demoRun Demo.toLocationNoStreet)))
    !! "street" = Some "Street name is required".
Proof.
  assert (view (demoRun Demo.toLocationNoStreet)
          = LocationView customer_location Demo.noStreet ∅) as Hview
    by (vm_compute; reflexivity).
  assert (String.length (CustomerLocationData.street Demo.noStreet) < 3)%nat
    as Hstreet by (vm_compute; lia).
  pose proof (@C8_location_step Demo.platform Demo.toLocationNoStreet "30-min" false
                Demo.ctx 0%Z customer_location Demo.noStreet ∅ Hview)
    as (_ & _ & Hmissing & _ & _).
  split; [exact Hview|]. split; [exact Hstreet|].
  exact (Hmissing eq_refl Hstreet).
Defined.

Lemma C9_late_slots_response_discarded_witness :
  view (demoRun Demo.toDateTimeTwoDays) = DateTimeView ∧
  AppContext.selectedDate (context (demoRun Demo.toDateTimeTwoDays)) = 0%Z ∧
  @formatDate Demo.platform 0%Z ≠ @formatDate Demo.platform 86400000%Z ∧
  @DateTimeSelection.shownSlots Demo.platform
    (@dispatch Demo.platform
       (SlotsArrived
          (@DateTimeSelection.requestKey Demo.platform (demoRun Demo.toDateTimeTwoDays))
          Demo.day0)
       (@dispatch Demo.platform (DayClick 86400000%Z)
          (demoRun Demo.toDateTimeTwoDays)))
  = @DateTimeSelection.shownSlots Demo.platform
      (@dispatch Demo.platform (DayClick 86400000%Z) (demoRun Demo.toDateTimeTwoDays)) ∧
  @DateTimeSelection.shownSlots Demo.platform
    (@dispatch Demo.platform (DayClick 86400000%Z) (demoRun Demo.toDateTimeTwoDays))
  = [Demo.slot11].
Proof.
  assert (view (demoRun Demo.toDateTimeTwoDays) = DateTimeView) as Hview
    by (vm_compute; reflexivity).
  assert (AppContext.selectedDate (context (demoRun Demo.toDateTimeTwoDays)) = 0%Z)
    as Hdate by (vm_compute; reflexivity).
  assert (@formatDate Demo.platform 0%Z ≠ @formatDate Demo.platform 86400000%Z)
    as Hdates by (vm_compute; discriminate).
  pose proof (proj2 (@C9_late_slots_response_discarded Demo.platform
                       (demoRun Demo.toDateTimeTwoDays) 0%Z 86400000%Z Demo.day0)
                Hview Hdate Hdates)
    as (_ & Hshown & _).
  split; [exact Hview|]. split; [exact Hdate|]. split; [exact Hdates|].
  split; [exact Hshown|]. vm_compute. reflexivity.
Defined.

(** * Further properties of the components *)

(** ** [toggleService] *)

Lemma toggleService_elem (serviceName other : string) (prev : list string) :
  other ∈ ServicesSelection.toggleService serviceName prev ↔
  (other = serviceName ∧ serviceName ∉ prev) ∨ (other ≠ serviceName ∧ other ∈ prev).
Proof.
  unfold ServicesSelection.toggleService. case_bool_decide as Hin.
  - rewrite list_elem_of_filter.
    destruct (decide (other = serviceName)) as [->|Hne]; tauto.
  - rewrite elem_of_app, list_elem_of_singleton.
    destruct (decide (other = serviceName)) as [->|Hne]; tauto.
Qed.

Lemma toggleService_NoDup (serviceName : string) (prev : list string) :
  NoDup prev → NoDup (ServicesSelection.toggleService serviceName prev).
Proof.
  intros Hnd. unfold ServicesSelection.toggleService. case_bool_decide as Hin.
  - by apply NoDup_filter.
  - apply NoDup_app. split_and!; [done| |apply NoDup_singleton].
    intros x Hx. rewrite list_elem_of_singleton. by intros ->.
Qed.

(** X1: after [toggleService] on an id, the id is selected exactly when it
    was not selected before, every other id is selected exactly when it was
    before, and a selection without repetition stays without repetition. *)
Theorem toggleService_flips_one (serviceName : string) (prev : list string) :
  (serviceName ∈ ServicesSelection.toggleService serviceName prev ↔ serviceName ∉ prev) ∧
  (∀ other, other ≠ serviceName →
     other ∈ ServicesSelection.toggleService serviceName prev ↔ other ∈ prev) ∧
  (NoDup prev → NoDup (ServicesSelection.toggleService serviceName prev)).
Proof.
  split_and!.
  - rewrite toggleService_elem. tauto.
  - intros other Hother. rewrite toggleService_elem. tauto.
  - apply toggleService_NoDup.
Qed.

Lemma filter_other_absent (x : string) (l : list string) :
  x ∉ l → filter (fun y => y ≠ x) l = l.
Proof.
  induction l as [|a l IH]; [done|]. intros Hnotin.
  apply not_elem_of_cons in Hnotin as [Hne Hl].
  rewrite filter_cons_True by done. by rewrite IH.
Qed.

(** X2: ticking and unticking.  Toggling an id that is not selected and
    toggling it again gives back the selection as it was; toggling twice an
    id that is selected, in a selection without repetition, gives the same
    ids with that id moved to the end. *)
Theorem toggleService_twice (serviceName : string) (prev : list string) :
  (serviceName ∉ prev →
   ServicesSelection.toggleService serviceName
     (ServicesSelection.toggleService serviceName prev) = prev) ∧
  (serviceName ∈ prev →
   ServicesSelection.toggleService serviceName
     (ServicesSelection.toggleService serviceName prev)
   = filter (fun x => x ≠ serviceName) prev ++ [serviceName]) ∧
  (serviceName ∈ prev → NoDup prev →
   ServicesSelection.toggleService serviceName
     (ServicesSelection.toggleService serviceName prev) ≡ₚ prev).
Proof.
  assert (serviceName ∈ prev →
          ServicesSelection.toggleService serviceName
            (ServicesSelection.toggleService serviceName prev)
          = filter (fun x => x ≠ serviceName) prev ++ [serviceName]) as Hmoved.
  { intros Hin. unfold ServicesSelection.toggleService.
    rewrite (bool_decide_eq_true_2 (serviceName ∈ prev)) by done.
    rewrite bool_decide_eq_false_2; [done|].
    rewrite list_elem_of_filter. tauto. }
  split_and!.
  - intros Hnotin. unfold ServicesSelection.toggleService.
    rewrite (bool_decide_eq_false_2 (serviceName ∈ prev)) by done.
    rewrite bool_decide_eq_true_2
      by (rewrite elem_of_app, list_elem_of_singleton; tauto).
    rewrite filter_app, filter_other_absent by done.
    rewrite filter_cons_False by tauto. by rewrite filter_nil, app_nil_r.
  - exact Hmoved.
  - intros Hin Hnd. rewrite Hmoved by done.
    apply NoDup_Permutation.
    + apply NoDup_app. split_and!; [by apply NoDup_filter| |apply NoDup_singleton].
      intros x Hx. apply list_elem_of_filter in Hx as [Hne _].
      rewrite list_elem_of_singleton. tauto.
    + done.
    + intros x. rewrite elem_of_app, list_elem_of_filter, list_elem_of_singleton.
      destruct (decide (x = serviceName)) as [->|Hne]; tauto.
Qed.

(** ** The selection of services over a run *)

Section selections.
Context `{Platform}.
Variable P : list string → Prop.
Hypothesis P_nil : P [].

Lemma selections_same (s s' : Wizard) :
  view s' = view s → services (formData s') = services (formData s) →
  selectionsSatisfy P s → selectionsSatisfy P s'.
Proof. intros Hview Hdraft [Hv Hd]. split; by rewrite ?Hview, ?Hdraft. Qed.

Lemma selections_other_view (s s' : Wizard) :
  (∀ selected, view s' ≠ ServicesView selected) →
  services (formData s') = services (formData s) →
  selectionsSatisfy P s → selectionsSatisfy P s'.
Proof.
  intros Hview Hdraft [Hv Hd]. split; [|by rewrite Hdraft].
  intros selected Hsel. by destruct (Hview selected).
Qed.

Lemma selections_setCurrentStep (k : Step) (s : Wizard) :
  selectionsSatisfy P s → selectionsSatisfy P (setCurrentStep k s).
Proof.
  intros [Hv Hd]. unfold setCurrentStep. case_decide; [done|].
  split; [|done]. simpl. intros selected Hsel.
  destruct k; simpl in Hsel; try discriminate Hsel.
  destruct (services (formData s)) as [sv|] eqn:Hsv; simpl in Hsel.
  - injection Hsel as <-. by apply Hd.
  - by injection Hsel as <-.
Qed.

Lemma selections_dispatch (e : Event) (s : Wizard) :
  (∀ x selected,
     P selected → x ∈ Service.name <$> ServicesSelection.services s →
     P (ServicesSelection.toggleService x selected)) →
  selectionsSatisfy P s → selectionsSatisfy P (dispatch e s).
Proof.
  intros Htoggle Hinv. pose proof Hinv as [Hv Hd].
  destruct e; unfold dispatch; destruct (view s) eqn:Hview; try exact Hinv;
    try (by apply (selections_other_view s));
    try (by apply selections_setCurrentStep).
  - unfold CustomerInfoForm.submit, CustomerInfoForm.onSubmit, handleSubmit.
    destruct (customerInfoSchema values).
    + apply selections_setCurrentStep. by apply (selections_same s).
    + by apply (selections_other_view s).
  - case_bool_decide as Hrow; [|exact Hinv]. split; [|done]. simpl.
    intros ? [= <-]. apply Htoggle; [by apply Hv|done].
  - unfold ServicesSelection.handleNext. case_match; [|exact Hinv].
    apply selections_setCurrentStep. split; simpl.
    + intros sel Hsel. rewrite Hview in Hsel. injection Hsel as <-. by apply Hv.
    + intros sv [= <-]. by apply Hv.
  - unfold MeetingLocation.handleNext, MeetingLocation.onSubmit, handleSubmit.
    destruct locType; [|destruct (customerLocationSchema values)].
    + apply selections_setCurrentStep. by apply (selections_same s).
    + apply selections_setCurrentStep. by apply (selections_same s).
    + by apply (selections_other_view s).
  - case_match; exact Hinv.
  - case_bool_decide; [|exact Hinv].
    unfold DateTimeSelection.handleSlotSelect, MultiStepBooking.handleDateTimeNext,
      MultiStepBooking.submitBooking. simpl.
    repeat case_match; by apply (selections_other_view s); simpl; rewrite ?Hview.
  - unfold retreat, MultiStepBooking.onBack.
    destruct (currentStep s); try exact Hinv; by apply selections_setCurrentStep.
  - unfold retreat, MultiStepBooking.onBack.
    destruct (currentStep s); try exact Hinv; by apply selections_setCurrentStep.
  - case_match; [exact Hinv|]. unfold retreat, MultiStepBooking.onBack.
    destruct (currentStep s); try exact Hinv; by apply selections_setCurrentStep.
  - case_match; exact Hinv.
  - case_match; exact Hinv.
  - case_match; exact Hinv.
  - case_match; exact Hinv.
  - case_match; exact Hinv.
  - case_match; exact Hinv.
  - case_match; exact Hinv.
  - case_match; exact Hinv.
Qed.

End selections.

Section selections_over_runs.
Context `{Platform}.

Lemma servicesResponse_dispatch (e : Event) (s : Wizard) :
  servicesResponse (dispatch e s) =
  match e with
  | ServicesArrived l => Some l
  | _ => servicesResponse s
  end.
Proof.
  destruct e; unfold dispatch, retreat, MultiStepBooking.onBack;
    destruct (view s) as [| |[]|], (currentStep s) eqn:Hstep; try reflexivity;
    handlers; simpl; rewrite ?Hstep; repeat case_match; reflexivity.
Qed.

Lemma selections_NoDup_run (es : list Event) (s : Wizard) :
  selectionsSatisfy NoDup s → selectionsSatisfy NoDup (run es s).
Proof.
  intros Hs. induction es as [|e es IH] using rev_ind; [done|].
  rewrite run_snoc. apply selections_dispatch; [apply NoDup_nil_2| |done].
  intros x selected Hnd _. by apply toggleService_NoDup.
Qed.

(** X3: in every state of every run, the selection ticked on the Services
    step and the selection recorded in the draft hold no id twice. *)
Theorem selection_never_repeats (es : list Event) dur mobile ctx now :
  selectionsSatisfy NoDup (run es (init dur mobile ctx now)).
Proof.
  apply selections_NoDup_run. split; [intros ? [=]|intros ? [=]].
Qed.

(** X4: in a run in which every response of the catalogue is the same
    list, every id of the selection on screen and of the selection in the
    draft is the id of a service of that list. *)
Theorem selection_within_catalogue
    (catalogue : list Service.t) (es : list Event) dur mobile ctx now :
  catalogueIs catalogue es →
  selectionsSatisfy
    (fun selected => ∀ id, id ∈ selected → id ∈ Service.name <$> catalogue)
    (run es (init dur mobile ctx now)).
Proof.
  intros Hes.
  cut (selectionsSatisfy
         (fun selected => ∀ id, id ∈ selected → id ∈ Service.name <$> catalogue)
         (run es (init dur mobile ctx now)) ∧
       (servicesResponse (run es (init dur mobile ctx now)) = None ∨
        servicesResponse (run es (init dur mobile ctx now)) = Some catalogue));
    [tauto|].
  induction es as [|e es IH] using rev_ind.
  - split; [|by left]. split; [intros ? [=]|intros ? [=]].
  - apply Forall_app in Hes as [Hes He].
    apply (proj1 (Forall_singleton _ _)) in He.
    destruct (IH Hes) as [Hsel Hcat]. rewrite run_snoc. split.
    + apply selections_dispatch;
        [intros id Hid; by apply elem_of_nil in Hid| |done].
      intros x selected Hin Hrow id Hid.
      apply toggleService_elem in Hid as [[-> _]|[_ Hid]]; [|by apply Hin].
      unfold ServicesSelection.services in Hrow.
      destruct Hcat as [Hcat|Hcat]; rewrite Hcat in Hrow; simpl in Hrow; [|done].
      by apply elem_of_nil in Hrow.
    + rewrite servicesResponse_dispatch. destruct e; simpl in He; try done.
      right. by subst.
Qed.

End selections_over_runs.

(** ** Next and Back *)

Section next_and_back.
Context `{Platform}.

(** X5: the exact test of the CustomerInfo step.  Next moves the wizard to
    the Services step exactly when the name has 2 characters or more, the
    phone has 10 characters or more (characters of any kind: the schema
    measures the length and does not look for digits) and the e-mail passes
    the e-mail test; otherwise the wizard stays on the step with the draft
    as it was. *)
Theorem customerInfo_next_exact_test
    (es : list Event) dur mobile ctx now (values : CustomerInfo) errors :
  let s := run es (init dur mobile ctx now) in
  view s = CustomerInfoView values errors →
  let s' := dispatch SubmitCustomerInfo s in
  (currentStep s' = Step2 ↔
   (2 ≤ String.length (name values))%nat ∧
   (10 ≤ String.length (phone values))%nat ∧
   zod_email (email values) = true) ∧
  (currentStep s' ≠ Step2 → currentStep s' = Step1 ∧ formData s' = formData s).
Proof.
  intros s Hview s'.
  assert (currentStep s = Step1) as Hstep.
  { rewrite (reachable_view_step s); [by rewrite Hview|apply reachable_start]. }
  rewrite <- customerInfoSchema_accepts.
  destruct (decide (customerInfoSchema values = [])) as [Hvalid|Hinvalid].
  - assert (currentStep s' = Step2) as Hnext.
    { unfold s'. rewrite (submit_customerInfo_valid s values errors) by done.
      unfold MultiStepBooking.handleCustomerInfoNext, setCurrentStep. simpl.
      rewrite Hstep. by case_decide. }
    split; [tauto|]. intros Hnot. by destruct Hnot.
  - assert (s' = with_view
                   (CustomerInfoView values
                      (parseErrorSchema (customerInfoSchema values) ∅)) s) as Hs'
      by (by apply (submit_customerInfo_invalid s values errors)).
    rewrite Hs'. simpl. rewrite Hstep. split; [|done].
    split; [discriminate|tauto].
Qed.

(** X6: Next and then Back on the CustomerInfo step.  When the form is
    accepted and the user comes back from the Services step, the form
    shows the values that were entered, without errors, and the draft holds
    them. *)
Theorem customerInfo_next_then_back
    (es : list Event) dur mobile ctx now (values : CustomerInfo) errors :
  let s := run es (init dur mobile ctx now) in
  view s = CustomerInfoView values errors →
  customerInfoSchema values = [] →
  let s' := run [SubmitCustomerInfo; Back] s in
  currentStep s' = Step1 ∧ view s' = CustomerInfoView values ∅ ∧
  customerInfo (formData s') = Some values.
Proof.
  intros s Hview Hvalid s'.
  assert (currentStep s = Step1) as Hstep.
  { rewrite (reachable_view_step s); [by rewrite Hview|apply reachable_start]. }
  change s' with (dispatch Back (dispatch SubmitCustomerInfo s)).
  rewrite (submit_customerInfo_valid s values errors) by done.
  unfold MultiStepBooking.handleCustomerInfoNext, setCurrentStep. simpl.
  rewrite Hstep. simpl. unfold dispatch, retreat. simpl.
  split; [done|]. split; [|done].
  destruct values as [[|a n] [|b p] [|c m]]; reflexivity.
Qed.

(** X7: Next and then Back on the Services step.  With a selection that
    is not empty, Next and then Back from the Location step show the
    Services step with the same selection ticked, and the draft holds
    it. *)
Theorem services_next_then_back
    (es : list Event) dur mobile ctx now (selected : list string) :
  let s := run es (init dur mobile ctx now) in
  view s = ServicesView selected →
  selected ≠ [] →
  let s' := run [ServicesNext; Back] s in
  currentStep s' = Step2 ∧ view s' = ServicesView selected ∧
  services (formData s') = Some {| selectedServices := selected |}.
Proof.
  intros s Hview Hne s'.
  assert (currentStep s = Step2) as Hstep.
  { rewrite (reachable_view_step s); [by rewrite Hview|apply reachable_start]. }
  assert (dispatch ServicesNext s =
          MultiStepBooking.handleServicesNext {| selectedServices := selected |} s)
    as Hnext.
  { unfold dispatch. rewrite Hview. unfold ServicesSelection.handleNext.
    by destruct selected. }
  change s' with (dispatch Back (dispatch ServicesNext s)). rewrite Hnext.
  unfold MultiStepBooking.handleServicesNext, setCurrentStep. simpl.
  rewrite Hstep. simpl. unfold dispatch, retreat. simpl. done.
Qed.

(** X8: Next and then Back on the Location step, on the desktop layout
    (where the DateTime step has a Back button).  In the mode
    customer_location with an accepted address, coming back shows the mode
    and the address as entered (an apartment left out shows as the empty
    string).  In the mode our_location, coming back shows that mode and an
    empty address form: what had been typed into the address fields before
    is not kept. *)
Theorem location_next_then_back
    (es : list Event) dur mobile ctx now
    (locType : LocationType) (values : CustomerLocationData.t) errors :
  let s := run es (init dur mobile ctx now) in
  view s = LocationView locType values errors →
  isMobileView s = false →
  let s' := run [LocationNext; Back] s in
  (locType = customer_location → customerLocationSchema values = [] →
   currentStep s' = Step3 ∧
   view s' =
     LocationView customer_location
       {| CustomerLocationData.location := CustomerLocationData.location values;
          CustomerLocationData.street := CustomerLocationData.street values;
          CustomerLocationData.building := CustomerLocationData.building values;
          CustomerLocationData.apartment :=
            Some (default "" (CustomerLocationData.apartment values)) |} ∅) ∧
  (locType = our_location →
   currentStep s' = Step3 ∧
   view s' =
     LocationView our_location
       {| CustomerLocationData.location := "";
          CustomerLocationData.street := "";
          CustomerLocationData.building := "";
          CustomerLocationData.apartment := Some "" |} ∅).
Proof.
  intros s Hview Hdesktop s'.
  assert (currentStep s = Step3) as Hstep.
  { rewrite (reachable_view_step s); [by rewrite Hview|apply reachable_start]. }
  change s' with (dispatch Back (dispatch LocationNext s)).
  split.
  - intros -> Hvalid.
    rewrite (next_location_customer_valid s values errors) by done.
    unfold MultiStepBooking.handleLocationNext, setCurrentStep. simpl.
    rewrite Hstep. simpl. unfold dispatch, retreat. simpl. rewrite Hdesktop. simpl.
    split; [done|].
    destruct values as [[|a l] [|b st] [|c bd] [[|d ap]|]]; reflexivity.
  - intros ->.
    rewrite (next_location_ours s values errors) by done.
    unfold MultiStepBooking.handleLocationNext, setCurrentStep. simpl.
    rewrite Hstep. simpl. unfold dispatch, retreat. simpl. rewrite Hdesktop. simpl.
    done.
Qed.

End next_and_back.

(** ** The draft and the step over a run *)

Section draft_and_step.
Context `{Platform}.

Lemma partsKept_dispatch (e : Event) (s : Wizard) :
  partsKept (formData s) (formData (dispatch e s)).
Proof.
  unfold partsKept.
  destruct e; unfold dispatch, retreat, MultiStepBooking.onBack;
    destruct (view s) as [| |[]|], (currentStep s) eqn:Hstep;
    try (split_and!; done);
    handlers; simpl; rewrite ?Hstep; repeat case_match; simpl;
    split_and!; first [done | by eexists].
Qed.

(** X9: no event takes a part out of the draft: a part that the draft
    holds at some point of a run is held at every later point (Back, a
    failed submission and a change of date included). *)
Theorem draft_parts_are_never_removed (es : list Event) (s : Wizard) :
  partsKept (formData s) (formData (run es s)).
Proof.
  induction es as [|e es IH] using rev_ind; [by split_and!|].
  rewrite run_snoc.
  pose proof (partsKept_dispatch e (run es s)) as Hstep.
  unfold partsKept in *. tauto.
Qed.

(** X11: on the mobile layout the DateTime step has no Back button (the
    Back of its sticky bar only folds the list of slots): while the
    DateTime step is on screen on that layout no event changes the step. *)
Theorem mobile_dateTime_step_has_no_way_back (s : Wizard) (e : Event) :
  view s = DateTimeView → isMobileView s = true →
  currentStep (dispatch e s) = currentStep s ∧ view (dispatch e s) = DateTimeView.
Proof.
  intros Hview Hmobile.
  destruct e; unfold dispatch; rewrite ?Hview, ?Hmobile; try done.
  - by case_match.
  - case_bool_decide; [|done].
    unfold DateTimeSelection.handleSlotSelect, MultiStepBooking.handleDateTimeNext,
      MultiStepBooking.submitBooking. simpl. by repeat case_match.
  - by case_match.
  - by case_match.
Qed.

(** X12: a click on a day empties the selected slot, and the alert of a
    successful booking is only rendered while the selected slot has a
    start time.  So after a click on a day the alert is not rendered, and
    when a submission is outstanding at that moment and succeeds next, its
    result is stored but the alert is still not rendered. *)
Theorem day_click_hides_success_alert (s : Wizard) (d : Date) (message : BookingResult) :
  view s = DateTimeView →
  MultiStepBooking.successAlertOpen (dispatch (DayClick d) s) = false ∧
  ((0 < outstanding s)%nat →
   let s' := dispatch (BookingFulfilled message) (dispatch (DayClick d) s) in
   bookingResponse s' = Some message ∧ appointmentScheduled s' = true ∧
   MultiStepBooking.successAlertOpen s' = false).
Proof.
  intros Hview.
  assert (dispatch (DayClick d) s = DateTimeSelection.onDayClick d s) as Hclick
    by (unfold dispatch; by rewrite Hview).
  rewrite Hclick. split.
  - unfold MultiStepBooking.successAlertOpen. simpl. by destruct (bookingResponse s).
  - intros Hout. unfold dispatch. simpl. apply Nat.ltb_lt in Hout. rewrite Hout.
    by destruct (view _).
Qed.

End draft_and_step.

(** ** What is posted, and when *)

Section posting.
Context `{Platform}.

(** X13: [submitBooking] without one of the four parts posts nothing: it
    only raises the toast "Missing required information".  Inside the
    wizard this never happens: in every state of a run, choosing a slot
    raises no toast. *)
Theorem missing_information_guard :
  (∀ (completeData : BookingFormData) (s : Wizard),
     customerInfo completeData = None ∨ services completeData = None ∨
     location completeData = None ∨ dateTime completeData = None →
     MultiStepBooking.submitBooking completeData s
     = toast "Missing required information" s ∧
     posted (MultiStepBooking.submitBooking completeData s) = posted s ∧
     loading (MultiStepBooking.submitBooking completeData s) = loading s) ∧
  (∀ (es : list Event) dur mobile ctx now (slot : Slot.t),
     toasts (dispatch (SlotSelect slot) (run es (init dur mobile ctx now)))
     = toasts (run es (init dur mobile ctx now))).
Proof.
  split.
  - intros completeData s Hmissing.
    assert (MultiStepBooking.submitBooking completeData s
            = toast "Missing required information" s) as Htoast.
    { unfold MultiStepBooking.submitBooking.
      destruct (customerInfo completeData), (services completeData),
        (location completeData), (dateTime completeData); try done.
      destruct Hmissing as [|[|[|]]]; discriminate. }
    by rewrite Htoast.
  - intros es dur mobile ctx now slot. set (s := run es _).
    pose proof (reachable_start es dur mobile ctx now) as Hreach. fold s in Hreach.
    pose proof (wizardInv_reachable s Hreach) as (_ & _ & Hup).
    pose proof (reachable_view_step s Hreach) as Hstep.
    destruct (view s) eqn:Hview; try (unfold dispatch; by rewrite Hview).
    destruct (decide (slot ∈ DateTimeSelection.shownSlots s)) as [Hin|Hout];
      [|unfold dispatch; rewrite Hview; by rewrite bool_decide_eq_false_2].
    simpl in Hstep. rewrite Hstep in Hup.
    destruct Hup as ([ci Hci] & [sv Hsv] & [loc Hloc]).
    by rewrite (slotSelect_posts s slot ci sv loc).
Qed.

(** X14: the request posted for a chosen slot asks for what the slots
    query asked for.  A slot on screen is one of the response kept under
    the key of the query of the current render, and its label could be
    formatted, so the time zone of the context is not empty.  The request
    posted for it carries its two times, and the duration, the date and
    the offset of the request are those of that key: the fallback
    "Asia/Calcutta" of the query only stands in for an empty time zone,
    and with an empty time zone no slot is on screen and the choice of a
    slot does nothing. *)
Theorem posted_request_matches_slots_query
    (es : list Event) dur mobile ctx now :
  let s := run es (init dur mobile ctx now) in
  (∀ slot : Slot.t,
     currentStep s = Step4 →
     slot ∈ DateTimeSelection.shownSlots s →
     ∃ m response,
       posted (dispatch (SlotSelect slot) s) = posted s ++ [m] ∧
       slotsCache s !! DateTimeSelection.requestKey s = Some response ∧
       slot ∈ all_available_slots_for_data response ∧
       is_Some (DateTimeSelection.formatTimeSlot s slot) ∧
       AppContext.timeZone (context s) ≠ "" ∧
       MeetingData.start_time m = Slot.start_time slot ∧
       MeetingData.end_time m = Slot.end_time slot ∧
       MeetingData.duration_id m = (DateTimeSelection.requestKey s).1.1 ∧
       MeetingData.date m = (DateTimeSelection.requestKey s).1.2 ∧
       MeetingData.user_timezone_offset m = (DateTimeSelection.requestKey s).2) ∧
  (AppContext.timeZone (context s) = "" →
   DateTimeSelection.shownSlots s = [] ∧
   ∀ slot : Slot.t, dispatch (SlotSelect slot) s = s).
Proof.
  intros s. split.
  - intros slot Hstep Hslot.
    pose proof (reachable_start es dur mobile ctx now) as Hreach. fold s in Hreach.
    pose proof (wizardInv_reachable s Hreach) as (_ & _ & Hup).
    rewrite Hstep in Hup. destruct Hup as ([ci Hci] & [sv Hsv] & [loc Hloc]).
    pose proof (reachable_step4_view s Hreach Hstep) as Hview.
    destruct (shownSlots_elem s slot Hslot) as [Hraw Hlabel].
    assert (∃ response,
              slotsCache s !! DateTimeSelection.requestKey s = Some response ∧
              slot ∈ all_available_slots_for_data response) as (response & Hkey & Hin).
    { revert Hraw.
      unfold DateTimeSelection.meetingData, DateTimeSelection.data.
      destruct (slotsCache s !! DateTimeSelection.requestKey s) as [r|]; simpl.
      - intros Hin. by exists r.
      - intros Hin. by apply elem_of_nil in Hin. }
    assert (AppContext.timeZone (context s) ≠ "") as Hzone.
    { intros Hempty. rewrite (shownSlots_empty_zone s Hempty) in Hslot.
      by apply elem_of_nil in Hslot. }
    exists (MultiStepBooking.meetingData (durationId s) ci sv loc (chosen slot s)),
      response.
    rewrite (slotSelect_posts s slot ci sv loc) by done.
    do 9 (split; [done|]). unfold DateTimeSelection.requestKey. simpl.
    by destruct (AppContext.timeZone (context s)).
  - intros Hempty. pose proof (shownSlots_empty_zone s Hempty) as Hnone.
    split; [done|]. intros slot. unfold dispatch.
    destruct (view s); try done.
    rewrite bool_decide_eq_false_2; [done|]. rewrite Hnone. apply not_elem_of_nil.
Qed.

Lemma draft_selection_checked (s : Wizard) sv :
  reachable s → services (formData s) = Some sv →
  selectedServices sv ≠ [] ∧ NoDup (selectedServices sv).
Proof.
  intros Hreach Hsv.
  pose proof (wizardInv_reachable s Hreach) as (_ & (_ & Hne & _) & _).
  split; [by apply Hne|].
  apply reachable_is_run in Hreach as (d & mob & ctx & now & es & ->).
  apply (selections_NoDup_run es (init d mob ctx now)); [|done].
  split; [intros ? [=]|intros ? [=]].
Qed.

(** X15: every request the wizard posts, in every run, carries customer
    data that passed the check of step 1 (name of 2 characters or more,
    phone of 10 or more, e-mail accepted), the JSON array of a selection
    that is not empty and holds no id twice, and, for the type
    customer_location, the JSON object of an address that passed the check
    of step 3. *)
Theorem posted_requests_are_checked (es : list Event) dur mobile ctx now :
  Forall requestChecked (posted (run es (init dur mobile ctx now))).
Proof.
  induction es as [|e es IH] using rev_ind; [by constructor|].
  rewrite run_snoc. set (s := run es _) in *.
  pose proof (reachable_start es dur mobile ctx now) as Hreach. fold s in Hreach.
  destruct (posted_dispatch e s)
    as [->|(slot & ci & sv & loc & _ & _ & _ & Hci & Hsv & Hloc & -> & _)]; [done|].
  apply Forall_app. split; [done|]. apply Forall_singleton.
  pose proof (wizardInv_reachable s Hreach) as (_ & (Hcheck & _ & Hshape) & _).
  apply Hcheck, customerInfoSchema_accepts in Hci as (Hname & Hphone & Hemail).
  destruct (draft_selection_checked s sv Hreach Hsv) as [Hne Hnd].
  apply Hshape in Hloc. unfold requestChecked. simpl.
  split_and!; [done|done|done|by exists (selectedServices sv)|].
  intros Htype. unfold locationShape in Hloc. rewrite Htype in *.
  destruct Hloc as [_ (c & Hc & Hvalid)].
  apply customerLocationSchema_accepts in Hvalid as (Hl & Hs & Hb).
  exists c. rewrite Hc. simpl. by split_and!.
Qed.

End posting.

Section accounting.
Context `{Platform}.

(** What an event does to the posted requests, the count of unanswered
    ones, the toasts and the result, in a state of a run. *)
Lemma accounting_dispatch (e : Event) (s : Wizard) :
  reachable s →
  let s' := dispatch e s in
  (posted s' = posted s ∧ outstanding s' = outstanding s ∧ toasts s' = toasts s ∧
   bookingResponse s' = bookingResponse s ∧
   appointmentScheduled s' = appointmentScheduled s) ∨
  (∃ m, posted s' = posted s ++ [m] ∧ outstanding s' = S (outstanding s) ∧
        toasts s' = toasts s ∧ bookingResponse s' = bookingResponse s ∧
        appointmentScheduled s' = appointmentScheduled s) ∨
  ((0 < outstanding s)%nat ∧ posted s' = posted s ∧
   outstanding s' = pred (outstanding s) ∧ toasts s' = toasts s ∧
   is_Some (bookingResponse s') ∧ appointmentScheduled s' = true) ∨
  ((0 < outstanding s)%nat ∧ posted s' = posted s ∧
   outstanding s' = pred (outstanding s) ∧
   (∃ message, toasts s' = toasts s ++ [message]) ∧
   bookingResponse s' = bookingResponse s ∧
   appointmentScheduled s' = appointmentScheduled s).
Proof.
  intros Hreach s'. unfold s'.
  destruct e as [values| |serviceName| |t|values| |d|tz| |slot| |message|err|k m|l];
    try (left; handlers; repeat case_match; by split_and!);
    try (left; unfold dispatch, retreat, MultiStepBooking.onBack, setCurrentStep;
         destruct (view s), (currentStep s), (isMobileView s); simpl;
         try case_decide; by split_and!).
  - pose proof (wizardInv_reachable s Hreach) as (_ & _ & Hup).
    pose proof (reachable_view_step s Hreach) as Hstep.
    destruct (view s) eqn:Hview;
      try (left; unfold dispatch; rewrite Hview; by split_and!).
    destruct (decide (slot ∈ DateTimeSelection.shownSlots s)) as [Hin|Hout];
      [|left; unfold dispatch; rewrite Hview, bool_decide_eq_false_2 by done;
        by split_and!].
    simpl in Hstep. rewrite Hstep in Hup.
    destruct Hup as ([ci Hci] & [sv Hsv] & [loc Hloc]).
    right. left. rewrite (slotSelect_posts s slot ci sv loc) by done.
    eexists. by split_and!.
  - unfold dispatch. destruct (0 <? outstanding s)%nat eqn:Hout.
    + right. right. left. apply Nat.ltb_lt in Hout.
      destruct (view s); by split_and!.
    + left. destruct (view s); by split_and!.
  - unfold dispatch. destruct (0 <? outstanding s)%nat eqn:Hout.
    + right. right. right. apply Nat.ltb_lt in Hout.
      destruct (view s); split_and!; try done; by eexists.
    + left. destruct (view s); by split_and!.
Qed.

(** X16: the books of the submissions balance in every state of every
    run: the toasts and the unanswered requests together never outnumber
    the requests posted (a toast is only raised for a request that
    failed), a result is only held after a request was posted, and the
    success alert is only set open while a result is held. *)
Theorem submissions_are_accounted (es : list Event) dur mobile ctx now :
  submissionsAccounted (run es (init dur mobile ctx now)).
Proof.
  induction es as [|e es IH] using rev_ind.
  - unfold submissionsAccounted. simpl. split_and!; [lia| |done].
    intros [r Hr]. discriminate Hr.
  - rewrite run_snoc. set (s := run es _) in *.
    pose proof (reachable_start es dur mobile ctx now) as Hreach. fold s in Hreach.
    destruct IH as (Hcount & Hresult & Hopen). unfold submissionsAccounted.
    destruct (accounting_dispatch e s Hreach)
      as [(-> & -> & -> & -> & ->)
         |[(m & -> & -> & -> & -> & ->)
          |[(Hpos & -> & -> & -> & Hsome & ->)
           |(Hpos & -> & -> & (message & ->) & -> & ->)]]].
    + done.
    + rewrite length_app. simpl. split_and!; [lia| |done].
      intros _ Hnil. by apply app_eq_nil in Hnil as [_ [=]].
    + split_and!; [lia| |done].
      intros _ Hnil. rewrite Hnil in Hcount. simpl in Hcount. lia.
    + rewrite length_app. simpl. split_and!; [lia|done|done].
Qed.

End accounting.

(** ** The serialised parts of a request *)

(** X17: the JSON array that a request carries in [selected_services]
    determines the selection: when two requests built by [submitBooking]
    carry the same array, the drafts they were built from hold the same
    list of ids, in the same order, whatever characters the ids are made
    of (quotes, backslashes and control characters included). *)
Theorem selected_services_determine_selection `{Platform}
    durationId1 durationId2 ci1 ci2 (sv1 sv2 : ServicesSelectionData)
    loc1 loc2 dt1 dt2 :
  MeetingData.selected_services
    (MultiStepBooking.meetingData durationId1 ci1 sv1 loc1 dt1)
  = MeetingData.selected_services
      (MultiStepBooking.meetingData durationId2 ci2 sv2 loc2 dt2) →
  sv1 = sv2.
Proof.
  simpl. intros Heq%stringify_strings_inj.
  destruct sv1, sv2. simpl in Heq. by rewrite Heq.
Qed.

(** X18: the location part of a request determines the location part of
    the draft.  For two locations of the shapes the Location step records,
    when the requests built from them carry the same [location_type] and
    the same [customer_location], the two locations are the same: the same
    mode and, for a customer's address, the same location, street,
    building and apartment (an apartment that is left out is told apart
    from an empty one). *)
Theorem request_determines_location `{Platform}
    durationId1 durationId2 ci1 ci2 sv1 sv2
    (loc1 loc2 : MeetingLocationData) dt1 dt2 :
  locationShape loc1 → locationShape loc2 →
  MeetingData.location_type
    (MultiStepBooking.meetingData durationId1 ci1 sv1 loc1 dt1)
  = MeetingData.location_type
      (MultiStepBooking.meetingData durationId2 ci2 sv2 loc2 dt2) →
  MeetingData.customer_location
    (MultiStepBooking.meetingData durationId1 ci1 sv1 loc1 dt1)
  = MeetingData.customer_location
      (MultiStepBooking.meetingData durationId2 ci2 sv2 loc2 dt2) →
  loc1 = loc2.
Proof.
  rewrite !meetingData_customer_location.
  destruct loc1 as [t1 o1 c1], loc2 as [t2 o2 c2]. unfold locationShape.
  cbn [MultiStepBooking.meetingData MeetingData.location_type locationType
       ourLocation customerLocation].
  intros Hshape1 Hshape2 <-. destruct t1.
  - destruct Hshape1 as [-> ->], Hshape2 as [-> ->]. done.
  - destruct Hshape1 as [-> (a1 & -> & _)], Hshape2 as [-> (a2 & -> & _)].
    rewrite !decide_True by done. cbn [fmap option_fmap option_map].
    intros Heq. apply (inj Some) in Heq.
    apply customerLocationJSON_inj in Heq. by rewrite Heq.
Qed.

(** * The exit animation *)

Section exit_animation.
Context `{Platform}.

Lemma isMobileView_dispatch (e : Event) (s : Wizard) :
  isMobileView (dispatch e s) = isMobileView s.
Proof.
  destruct e; unfold dispatch, retreat, MultiStepBooking.onBack;
    destruct (view s) as [| |[]|], (currentStep s) eqn:Hstep; try reflexivity;
    handlers; simpl; rewrite ?Hstep; repeat case_match; done.
Qed.

(** With the component of the current step on screen, an event moves the
    step by one position at most. *)
Lemma step_dispatch (e : Event) (s : Wizard) :
  mounted s = true →
  currentStep (dispatch e s) = currentStep s ∨
  (isNext e = true ∧
   step_number (currentStep (dispatch e s)) = S (step_number (currentStep s))) ∨
  (e = Back ∧
   S (step_number (currentStep (dispatch e s))) = step_number (currentStep s)).
Proof.
  intros Hstep%mounted_step.
  destruct e; unfold dispatch, retreat, MultiStepBooking.onBack;
    destruct (view s) as [| |[]|] eqn:Hview; simpl in Hstep;
    try (left; reflexivity);
    handlers; simpl; rewrite ?Hstep; simpl; repeat case_match; simpl;
    rewrite ?Hstep; first [by left | right; left; by split | right; right; by split].
Qed.


End exit_animation.

Section exit_runs.
Context `{Platform}.




Lemma exit_run_snoc (actions : list Exit.Action) (a : Exit.Action) (x : Exit.Screen) :
  Exit.run (actions ++ [a]) x = Exit.step a (Exit.run actions x).
Proof. unfold Exit.run. by rewrite foldl_app. Qed.

(** A request built from checked parts. *)
Lemma requestChecked_meetingData dur ci sv loc dt :
  customerInfoSchema ci = [] → selectedServices sv ≠ [] →
  NoDup (selectedServices sv) → locationShape loc →
  requestChecked (MultiStepBooking.meetingData dur ci sv loc dt).
Proof.
  intros (Hname & Hphone & Hemail)%customerInfoSchema_accepts Hne Hnd Hloc.
  unfold requestChecked. simpl.
  split_and!; [done|done|done|by exists (selectedServices sv)|].
  intros Htype. unfold locationShape in Hloc. rewrite Htype in *.
  destruct Hloc as [_ (c & Hc & Hvalid)].
  apply customerLocationSchema_accepts in Hvalid as (Hl & Hs & Hb).
  exists c. rewrite Hc. simpl. by split_and!.
Qed.

Lemma inv_start dur mobile ctx now : Exit.inv (Exit.start dur mobile ctx now).
Proof.
  unfold Exit.inv. simpl. split_and!; done.
Qed.

(** An event on the component that has come in. *)
Lemma inv_rest (e : Event) (s : Wizard) :
  Exit.inv {| Exit.wizard := s; Exit.exiting := None |} →
  Exit.inv {| Exit.wizard := dispatch e s; Exit.exiting := None |}.
Proof.
  unfold Exit.inv. simpl. intros (Hchecked & Hupto & Hsel & Hreq & Hloc & Hmounted).
  assert (wizardInv (dispatch e s)) as (Hm' & Hc' & Hu')
    by (by apply wizardInv_dispatch).
  split; [done|]. split; [done|]. split.
  { apply selections_dispatch; [constructor| |done].
    intros x selected Hnd _. by apply toggleService_NoDup. }
  split; [|split; [|done]].
  - destruct (posted_dispatch e s)
      as [->|(slot & ci & sv & loc & _ & _ & _ & Hci & Hsv & Hl & -> & _)]; [done|].
    apply Forall_app. split; [done|]. apply Forall_singleton.
    destruct Hchecked as (Hc1 & Hc2 & Hc3).
    apply requestChecked_meetingData;
      [by apply Hc1|by apply Hc2|by apply Hsel|by apply Hc3].
  - destruct (posted_dispatch e s)
      as [->|(slot & ci & sv & loc & _ & _ & _ & Hci & Hsv & Hl & -> & _)]; [done|].
    apply Forall_app. split; [done|]. apply Forall_singleton.
    apply meetingData_locationDetail. by apply Hchecked.
Qed.

End exit_runs.

Section exit_invariant.
Context `{Platform}.

Lemma viewStep_afterNext (v : View) : viewStep (Exit.afterNext v) = viewStep v.
Proof. by destruct v as [| |[]|]. Qed.

Lemma afterNext_services (v : View) (selected : list string) :
  Exit.afterNext v = ServicesView selected → v = ServicesView selected.
Proof. by destruct v as [| |[]|]. Qed.

Lemma draftUpTo_partsKept (k : Step) (fd fd' : BookingFormData) :
  partsKept fd fd' → draftUpTo k fd → draftUpTo k fd'.
Proof. unfold partsKept. destruct k; simpl; tauto. Qed.

Lemma draftUpTo_neighbour (k n : Step) (fd : BookingFormData) :
  S (step_number k) = step_number n → draftUpTo n fd → draftUpTo k fd.
Proof. destruct k, n; simpl; try done; try lia; tauto. Qed.

(** An event that changes the step on the desktop layout: the component
    on screen starts to leave. *)
Lemma inv_exit_start (e : Event) (s : Wizard) :
  Exit.inv {| Exit.wizard := s; Exit.exiting := None |} →
  currentStep (dispatch e s) ≠ currentStep s → isMobileView s = false →
  Exit.inv
    {| Exit.wizard :=
         with_view (match e with Back => view s | _ => Exit.afterNext (view s) end)
           (dispatch e s);
       Exit.exiting := Some (formData s) |}.
Proof.
  intros Hinv Hmoves Hdesktop. pose proof (inv_rest e s Hinv) as Hinv'.
  revert Hinv Hinv'. unfold Exit.inv. simpl.
  intros (Hchecked & Hupto & [Hsel1 Hsel2] & _ & _ & Hmounted)
         (Hchecked' & Hupto' & [Hsel1' Hsel2'] & Hreq' & Hloc' & _).
  do 2 (split; [done|]). split.
  { split; [|done]. simpl. intros selected Hview. apply Hsel1.
    destruct e; try (by apply afterNext_services); done. }
  do 2 (split; [done|]).
  assert (viewStep (match e with Back => view s | _ => Exit.afterNext (view s) end)
          = currentStep s) as Hon.
  { apply mounted_step in Hmounted. rewrite Hmounted.
    destruct e; try apply viewStep_afterNext; done. }
  unfold Exit.leavingOk. simpl. rewrite Hon.
  split; [by rewrite isMobileView_dispatch|]. split; [done|]. split; [done|].
  split; [apply partsKept_dispatch|]. split; [done|].
  unfold Exit.neighbour.
  destruct (step_dispatch e s Hmounted) as [Hsame|[[_ Hup]|[_ Hdown]]];
    [done|by left|by right].
Qed.

Lemma inv_leaving_kept (fd : BookingFormData) (s s' : Wizard) :
  formData s' = formData s → currentStep s' = currentStep s →
  posted s' = posted s → isMobileView s' = isMobileView s →
  viewStep (view s') = viewStep (view s) →
  (∀ selected, view s' = ServicesView selected → NoDup selected) →
  Exit.inv {| Exit.wizard := s; Exit.exiting := Some fd |} →
  Exit.inv {| Exit.wizard := s'; Exit.exiting := Some fd |}.
Proof.
  unfold Exit.inv, Exit.leavingOk. simpl.
  intros Hfd Hstep Hposted Hmobile Hview Hsel
         (Hc & Hu & [_ Hs2] & Hr & Hl & (Hm & Hcf & Huf & Hk & Hn & Hnb)).
  rewrite Hfd, Hstep, Hposted, Hmobile, Hview. split_and!; try done.
  split; [done|by rewrite Hfd].
Qed.

End exit_invariant.

Section exit_leaving.
Context `{Platform}.

(** The callbacks of a leaving component. *)
Lemma inv_stale_next (fd fd' : BookingFormData) (k : Step) (s : Wizard) :
  Exit.inv {| Exit.wizard := s; Exit.exiting := Some fd |} →
  step_number k = S (step_number (viewStep (view s))) →
  partsKept fd fd' → draftChecked fd' → draftUpTo k fd' →
  (∀ sv, services fd' = Some sv → NoDup (selectedServices sv)) →
  Exit.inv
    {| Exit.wizard :=
         Exit.setStep k (setFormData fd' (with_view (Exit.afterNext (view s)) s));
       Exit.exiting := Some fd |}.
Proof.
  unfold Exit.inv, Exit.leavingOk. simpl.
  intros (Hc & Hu & [Hs1 Hs2] & Hr & Hl & (Hm & Hcf & Huf & Hk & Hn & Hnb))
         Hstep Hkept Hchecked Hupto Hnodup.
  rewrite viewStep_afterNext. split_and!; try done.
  - split; [|done]. simpl. intros selected Hsel. apply Hs1.
    by apply afterNext_services.
  - by left.
Qed.

Lemma inv_stale_back (fd : BookingFormData) (k : Step) (s : Wizard) :
  Exit.inv {| Exit.wizard := s; Exit.exiting := Some fd |} →
  S (step_number k) = step_number (viewStep (view s)) →
  Exit.inv {| Exit.wizard := Exit.setStep k s; Exit.exiting := Some fd |}.
Proof.
  unfold Exit.inv, Exit.leavingOk. simpl.
  intros (Hc & Hu & [Hs1 Hs2] & Hr & Hl & (Hm & Hcf & Huf & Hk & Hn & Hnb)) Hstep.
  split_and!; try done.
  - apply (draftUpTo_partsKept k fd); [done|].
    by apply (draftUpTo_neighbour k (viewStep (view s))).
  - by right.
Qed.

Lemma inv_leaving (fd : BookingFormData) (e : Event) (s : Wizard) :
  Exit.inv {| Exit.wizard := s; Exit.exiting := Some fd |} →
  Exit.inv {| Exit.wizard := Exit.leavingDispatch fd e s; Exit.exiting := Some fd |}.
Proof.
  intros Hinv. pose proof Hinv as Hinv0. revert Hinv0. unfold Exit.inv at 1. simpl.
  intros (Hc & Hu & [Hs1 Hs2] & Hr & Hl & (Hm & Hcf & Huf & Hk & Hn & Hnb)).
  destruct e; unfold Exit.leavingDispatch;
    destruct (view s) as [vals errs|sel|locType vals errs|] eqn:Hview;
    try exact Hinv.
  all: try (apply (inv_leaving_kept fd s); [..|exact Hinv];
         try (intros sel'); unfold dispatch; rewrite ?Hview; handlers; simpl;
         rewrite ?Hview; repeat case_match; simpl; rewrite ?Hview;
         first [done | by apply Hs1
               | intros [= <-]; apply toggleService_NoDup; by apply Hs1]).
  - (* Next of the leaving step 1 *)
    unfold CustomerInfoForm.submit, CustomerInfoForm.onSubmit, handleSubmit.
    destruct (customerInfoSchema vals) eqn:Hvalid.
    + unfold Exit.passed, Exit.handleCustomerInfoNext. apply inv_stale_next;
        [exact Hinv|by rewrite Hview|..].
      * unfold partsKept. simpl. repeat split; first [done|intros _; by eexists].
      * destruct Hcf as (Hc1 & Hc2 & Hc3). split_and!; simpl; [|done..].
        by intros ci [= <-].
      * simpl. by eexists.
      * done.
    + apply (inv_leaving_kept fd s); [..|exact Hinv]; simpl; rewrite ?Hview; done.
  - (* Next of the leaving step 2 *)
    unfold ServicesSelection.handleNext. destruct sel as [|x sel]; [exact Hinv|].
    simpl. unfold Exit.passed, Exit.handleServicesNext. apply inv_stale_next;
      [exact Hinv|by rewrite Hview|..].
    + unfold partsKept. simpl. repeat split; first [done|intros _; by eexists].
    + destruct Hcf as (Hc1 & Hc2 & Hc3). split_and!; simpl; [done| |done].
      by intros sv [= <-].
    + simpl in Huf |- *. split; [done|by eexists].
    + simpl. intros sv [= <-]. simpl. by apply Hs1.
  - (* Next of the leaving step 3 *)
    assert (∀ data, locationShape data →
              Exit.inv
                {| Exit.wizard :=
                     Exit.passed (Exit.handleLocationNext fd) data s;
                   Exit.exiting := Some fd |}) as Hnext.
    { intros data Hshape. unfold Exit.passed, Exit.handleLocationNext.
      apply inv_stale_next; [exact Hinv|by rewrite Hview|..].
      - unfold partsKept. simpl. repeat split; first [done|intros _; by eexists].
      - destruct Hcf as (Hc1 & Hc2 & Hc3). split_and!; simpl; [done|done|].
        by intros loc [= <-].
      - simpl in Huf |- *. destruct Huf as [? ?]. split_and!; [done|done|by eexists].
      - done. }
    unfold MeetingLocation.handleNext, MeetingLocation.onSubmit, handleSubmit.
    destruct locType.
    + by apply Hnext.
    + destruct (customerLocationSchema vals) eqn:Hvalid.
      * apply Hnext. split; [done|by eexists].
      * apply (inv_leaving_kept fd s); [..|exact Hinv]; simpl; rewrite ?Hview; done.
  - (* a slot of the leaving step 4 *)
    case_bool_decide as Hslot; [|exact Hinv].
    pose proof Huf as Hparts. simpl in Hparts.
    destruct Hparts as ([ci Hci] & [sv Hsv] & [loc Hloc]).
    pose proof Hcf as (Hc1 & Hc2 & Hc3).
    unfold DateTimeSelection.handleSlotSelect, Exit.handleDateTimeNext,
      MultiStepBooking.submitBooking. simpl. rewrite Hci, Hsv, Hloc.
    unfold Exit.inv, Exit.leavingOk. simpl. rewrite Hview.
    split; [|split; [|split; [|split; [|split]]]].
    + split_and!; simpl; intros ? [= <-]; auto.
    + destruct (currentStep s); simpl; repeat split; by eexists.
    + split; simpl; [by rewrite Hview|]. intros ? [= <-]. by apply Hn.
    + apply Forall_app. split; [done|]. apply Forall_singleton.
      apply requestChecked_meetingData; auto.
    + apply Forall_app. split; [done|]. apply Forall_singleton.
      apply meetingData_locationDetail. auto.
    + split_and!; try done;
        unfold partsKept; simpl; rewrite ?Hci, ?Hsv, ?Hloc;
        repeat split; first [done|intros _; by eexists].
  - (* Back of the leaving step 2 *)
    simpl. apply inv_stale_back; [exact Hinv|by rewrite Hview].
  - (* Back of the leaving step 3 *)
    simpl. apply inv_stale_back; [exact Hinv|by rewrite Hview].
  - (* Back of the leaving step 4 *)
    rewrite Hm. apply inv_stale_back; [exact Hinv|by rewrite Hview].
Qed.

End exit_leaving.

Section exit_properties.
Context `{Platform}.

Lemma inv_step (a : Exit.Action) (x : Exit.Screen) :
  Exit.inv x → Exit.inv (Exit.step a x).
Proof.
  destruct x as [s [fd|]], a as [e|]; unfold Exit.step; simpl; intros Hinv.
  - by apply inv_leaving.
  - revert Hinv. unfold Exit.inv, Exit.leavingOk. simpl.
    intros (Hc & Hu & [Hs1 Hs2] & Hr & Hl & _). split_and!; try done.
    + split; [|done]. simpl. intros selected Hsel.
      destruct (currentStep s); simpl in Hsel; try discriminate Hsel.
      destruct (services (formData s)) as [sv|] eqn:Hsv; simpl in Hsel.
      * injection Hsel as <-. by apply Hs2.
      * injection Hsel as <-. constructor.
    + apply mounted_step. simpl. by rewrite mounted_mount.
  - destruct (bool_decide (currentStep (dispatch e s) = currentStep s) || isMobileView s)
      eqn:Hstays.
    + by apply inv_rest.
    + apply orb_false_iff in Hstays as [Hstep Hdesktop].
      apply bool_decide_eq_false in Hstep. by apply inv_exit_start.
  - exact Hinv.
Qed.

Lemma inv_run (actions : list Exit.Action) dur mobile ctx now :
  Exit.inv (Exit.run actions (Exit.start dur mobile ctx now)).
Proof.
  induction actions as [|a actions IH] using rev_ind; [apply inv_start|].
  rewrite exit_run_snoc. by apply inv_step.
Qed.

(** The callbacks of a leaving component set the step next to its own. *)
Lemma step_leaving (fd : BookingFormData) (e : Event) (s : Wizard) :
  isMobileView s = false →
  currentStep (Exit.leavingDispatch fd e s) = currentStep s ∨
  (isNext e = true ∧
   step_number (currentStep (Exit.leavingDispatch fd e s))
   = S (step_number (viewStep (view s)))) ∨
  (e = Back ∧
   S (step_number (currentStep (Exit.leavingDispatch fd e s)))
   = step_number (viewStep (view s))).
Proof.
  intros Hdesktop.
  destruct e; unfold Exit.leavingDispatch;
    destruct (view s) as [vals errs|sel|[] vals errs|] eqn:Hview;
    try (left; reflexivity);
    try (left; unfold dispatch; rewrite ?Hview; handlers; simpl;
         repeat case_match; reflexivity);
    rewrite ?Hdesktop;
    unfold CustomerInfoForm.submit, CustomerInfoForm.onSubmit,
      ServicesSelection.handleNext, MeetingLocation.handleNext,
      MeetingLocation.onSubmit, handleSubmit, Exit.passed,
      DateTimeSelection.handleSlotSelect, Exit.handleDateTimeNext,
      MultiStepBooking.submitBooking;
    simpl; repeat case_match; simpl;
    first [by left | right; left; by split | right; right; by split].
Qed.

(** X10: the step moves with the component on screen.  An event leaves the
    step as it is, or it is the Next of the component on screen and sets
    the step after that component's, or its Back and sets the step before.
    With no exit animation under way the component on screen is the one
    of the current step, and the step moves by one position at most.
    While a component is leaving (desktop layout) the current step is
    already next to that component's, so the step never moves by more
    than two positions, and it does move by two: on the Services step,
    Next followed by Back before the animation is over sets the step to 1
    with the selection in the draft, and the CustomerInfo step is what
    comes on screen. *)
Theorem step_moves_with_the_component_on_screen
    (actions : list Exit.Action) dur mobile ctx now (a : Exit.Action) :
  let x := Exit.run actions (Exit.start dur mobile ctx now) in
  let s := Exit.wizard x in
  let s' := Exit.wizard (Exit.step a x) in
  (currentStep s' = currentStep s ∨
   (∃ e, a = Exit.Happens e ∧ isNext e = true ∧
         step_number (currentStep s') = S (step_number (viewStep (view s)))) ∨
   (a = Exit.Happens Back ∧
    S (step_number (currentStep s')) = step_number (viewStep (view s)))) ∧
  (Exit.exiting x = None → viewStep (view s) = currentStep s) ∧
  (is_Some (Exit.exiting x) →
   isMobileView s = false ∧ Exit.neighbour (currentStep s) (viewStep (view s))) ∧
  (step_number (currentStep s') ≤ step_number (currentStep s) + 2)%nat ∧
  (step_number (currentStep s) ≤ step_number (currentStep s') + 2)%nat ∧
  (∀ selected,
     Exit.exiting x = None → isMobileView s = false →
     view s = ServicesView selected → selected ≠ [] →
     let y1 := Exit.step (Exit.Happens ServicesNext) x in
     let y2 := Exit.step (Exit.Happens Back) y1 in
     let y3 := Exit.step Exit.ExitComplete y2 in
     currentStep (Exit.wizard y1) = Step3 ∧
     currentStep (Exit.wizard y2) = Step1 ∧
     services (formData (Exit.wizard y2)) = Some {| selectedServices := selected |} ∧
     view (Exit.wizard y2) = ServicesView selected ∧
     currentStep (Exit.wizard y3) = Step1 ∧ Exit.exiting y3 = None ∧
     view (Exit.wizard y3) = mount Step1 (formData (Exit.wizard y2))).
Proof.
  intros x s s'. pose proof (inv_run actions dur mobile ctx now) as Hinv.
  fold x in Hinv.
  assert (Exit.exiting x = None → viewStep (view s) = currentStep s) as Hrest.
  { intros Hnone. revert Hinv. unfold Exit.inv. rewrite Hnone.
    intros (_ & _ & _ & _ & _ & Hm). symmetry. by apply mounted_step. }
  assert (is_Some (Exit.exiting x) →
          isMobileView s = false ∧
          Exit.neighbour (currentStep s) (viewStep (view s))) as Hleaving.
  { intros [fd Hfd]. revert Hinv. unfold Exit.inv. rewrite Hfd.
    intros (_ & _ & _ & _ & _ & (Hm & _ & _ & _ & _ & Hnb)). by split. }
  assert (currentStep s' = currentStep s ∨
          (∃ e, a = Exit.Happens e ∧ isNext e = true ∧
                step_number (currentStep s') = S (step_number (viewStep (view s)))) ∨
          (a = Exit.Happens Back ∧
           S (step_number (currentStep s')) = step_number (viewStep (view s))))
    as Hmove.
  { subst s'. unfold Exit.step. fold s.
    destruct a as [e|], (Exit.exiting x) as [fd|] eqn:Hexit; simpl.
    - destruct Hleaving as [Hdesktop _]; [by eexists|].
      destruct (step_leaving fd e s Hdesktop) as [Hsame|[[Hnext Hup]|[-> Hdown]]];
        [by left|right; left; by exists e|right; right; by split].
    - assert (mounted s = true) as Hm by (by apply mounted_step; rewrite Hrest).
      rewrite Hrest by done.
      assert (currentStep
                (Exit.wizard
                   (if bool_decide (currentStep (dispatch e s) = currentStep s)
                       || isMobileView s
                    then {| Exit.wizard := dispatch e s; Exit.exiting := None |}
                    else
                      {| Exit.wizard :=
                           with_view
                             match e with
                             | Back => view s
                             | _ => Exit.afterNext (view s)
                             end (dispatch e s);
                         Exit.exiting := Some (formData s) |}))
              = currentStep (dispatch e s)) as -> by (by case_match).
      destruct (step_dispatch e s Hm) as [Hsame|[[Hnext Hup]|[-> Hdown]]];
        [by left|right; left; by exists e|right; right; by split].
    - by left.
    - by left. }
  split; [exact Hmove|]. split; [exact Hrest|]. split; [exact Hleaving|].
  assert (step_number (viewStep (view s)) = step_number (currentStep s) ∨
          Exit.neighbour (currentStep s) (viewStep (view s))) as Hnear.
  { destruct (Exit.exiting x) as [fd|] eqn:Hexit.
    - right. by apply Hleaving.
    - left. by rewrite Hrest. }
  split; [|split].
  - unfold Exit.neighbour in Hnear.
    destruct Hmove as [->|[(e & _ & _ & Hup)|[_ Hdown]]]; lia.
  - unfold Exit.neighbour in Hnear.
    destruct Hmove as [->|[(e & _ & _ & Hup)|[_ Hdown]]]; lia.
  - intros selected Hnone Hdesktop Hview Hsome.
    pose proof (Hrest Hnone) as Hstep. rewrite Hview in Hstep. simpl in Hstep.
    destruct x as [w ex]. simpl in *. subst ex s.
    destruct selected as [|id selected]; [done|].
    unfold Exit.step. simpl. unfold dispatch. rewrite Hview.
    unfold ServicesSelection.handleNext, MultiStepBooking.handleServicesNext,
      setCurrentStep. simpl. rewrite <- Hstep. simpl. rewrite Hdesktop. simpl.
    done.
Qed.

(** X19: clicks during an exit animation do not corrupt the wizard.  In
    every state of every run, with or without clicks on a leaving
    component, the parts the draft holds have passed their checks and the
    parts of all steps before the current one are there; no selection
    holds an id twice; every request posted carries checked customer data,
    a selection that is not empty and the location detail of its type;
    and when no animation is under way the component on screen is the one
    of the current step. *)
Theorem exit_clicks_keep_the_wizard_sound
    (actions : list Exit.Action) dur mobile ctx now :
  let x := Exit.run actions (Exit.start dur mobile ctx now) in
  let s := Exit.wizard x in
  draftChecked (formData s) ∧ draftUpTo (currentStep s) (formData s) ∧
  selectionsSatisfy NoDup s ∧
  Forall requestChecked (posted s) ∧ Forall locationDetailMatches (posted s) ∧
  (Exit.exiting x = None → mounted s = true) ∧
  (∀ fd, Exit.exiting x = Some fd →
         isMobileView s = false ∧ partsKept fd (formData s) ∧
         Exit.neighbour (currentStep s) (viewStep (view s))).
Proof.
  intros x s. pose proof (inv_run actions dur mobile ctx now) as Hinv.
  fold x in Hinv. revert Hinv. unfold Exit.inv. fold s.
  intros (Hc & Hu & Hs & Hr & Hl & Hexit). do 5 (split; [done|]). split.
  - intros Hnone. by rewrite Hnone in Hexit.
  - intros fd Hfd. rewrite Hfd in Hexit.
    destruct Hexit as (Hm & _ & _ & Hk & _ & Hnb). by split_and!.
Qed.


End exit_properties.

(** ** The properties above on concrete runs *)

(** X4 on the run up to the Location step, the catalogue being [A, B]. *)
Lemma selection_within_catalogue_witness :
  @catalogueIs Demo.platform [Demo.serviceA; Demo.serviceB] Demo.toLocation ∧
  selectionsSatisfy
    (fun selected =>
       ∀ id, id ∈ selected → id ∈ Service.name <$> [Demo.serviceA; Demo.serviceB])
    (demoRun Demo.toLocation).
Proof.
  assert (@catalogueIs Demo.platform [Demo.serviceA; Demo.serviceB] Demo.toLocation)
    as Hcatalogue.
  { unfold catalogueIs, Demo.toLocation, Demo.toServicesA, Demo.toServices,
      Demo.toCustomerInfo. cbn [app].
    repeat (apply Forall_cons_2; [first [exact I | reflexivity]|]).
    apply Forall_nil_2. }
  split; [exact Hcatalogue|].
  exact (@selection_within_catalogue Demo.platform [Demo.serviceA; Demo.serviceB]
           Demo.toLocation "30-min" false Demo.ctx 0%Z Hcatalogue).
Defined.

(** X5 with the form filled in by Amal. *)
Lemma customerInfo_next_exact_test_witness :
  view (demoRun Demo.toCustomerInfo) = CustomerInfoView Demo.amal ∅ ∧
  currentStep (@dispatch Demo.platform SubmitCustomerInfo (demoRun Demo.toCustomerInfo))
    = Step2.
Proof.
  assert (view (demoRun Demo.toCustomerInfo) = CustomerInfoView Demo.amal ∅) as Hview
    by (vm_compute; reflexivity).
  pose proof (@customerInfo_next_exact_test Demo.platform Demo.toCustomerInfo
                "30-min" false Demo.ctx 0%Z Demo.amal ∅ Hview) as [Hnext _].
  split; [exact Hview|]. apply Hnext.
  vm_compute. split; [lia|]. split; [lia|reflexivity].
Defined.

(** X6 with the form filled in by Amal. *)
Lemma customerInfo_next_then_back_witness :
  view (demoRun Demo.toCustomerInfo) = CustomerInfoView Demo.amal ∅ ∧
  @customerInfoSchema Demo.platform Demo.amal = [] ∧
  currentStep (@run Demo.platform [SubmitCustomerInfo; Back] (demoRun Demo.toCustomerInfo))
    = Step1 ∧
  view (@run Demo.platform [SubmitCustomerInfo; Back] (demoRun Demo.toCustomerInfo))
    = CustomerInfoView Demo.amal ∅ ∧
  customerInfo
    (formData (@run Demo.platform [SubmitCustomerInfo; Back] (demoRun Demo.toCustomerInfo)))
    = Some Demo.amal.
Proof.
  assert (view (demoRun Demo.toCustomerInfo) = CustomerInfoView Demo.amal ∅) as Hview
    by (vm_compute; reflexivity).
  assert (@customerInfoSchema Demo.platform Demo.amal = []) as Hvalid
    by (vm_compute; reflexivity).
  split; [exact Hview|]. split; [exact Hvalid|].
  exact (@customerInfo_next_then_back Demo.platform Demo.toCustomerInfo
           "30-min" false Demo.ctx 0%Z Demo.amal ∅ Hview Hvalid).
Defined.

(** X7 with [A] ticked. *)
Lemma services_next_then_back_witness :
  view (demoRun Demo.toServicesA) = ServicesView ["A"] ∧
  ["A"] ≠ @nil string ∧
  currentStep (@run Demo.platform [ServicesNext; Back] (demoRun Demo.toServicesA))
    = Step2 ∧
  view (@run Demo.platform [ServicesNext; Back] (demoRun Demo.toServicesA))
    = ServicesView ["A"] ∧
  services (formData (@run Demo.platform [ServicesNext; Back] (demoRun Demo.toServicesA)))
    = Some {| selectedServices := ["A"] |}.
Proof.
  assert (view (demoRun Demo.toServicesA) = ServicesView ["A"]) as Hview
    by (vm_compute; reflexivity).
  assert (["A"] ≠ @nil string) as Hsome by discriminate.
  split; [exact Hview|]. split; [exact Hsome|].
  exact (@services_next_then_back Demo.platform Demo.toServicesA
           "30-min" false Demo.ctx 0%Z ["A"] Hview Hsome).
Defined.

(** X8 with an address in Doha entered on the desktop layout. *)
Lemma location_next_then_back_witness :
  view (demoRun DemoExtra.toLocationHome)
    = LocationView customer_location DemoExtra.home ∅ ∧
  isMobileView (demoRun DemoExtra.toLocationHome) = false ∧
  customerLocationSchema DemoExtra.home = [] ∧
  currentStep (@run Demo.platform [LocationNext; Back] (demoRun DemoExtra.toLocationHome))
    = Step3 ∧
  view (@run Demo.platform [LocationNext; Back] (demoRun DemoExtra.toLocationHome))
    = LocationView customer_location
        {| CustomerLocationData.location := CustomerLocationData.location DemoExtra.home;
           CustomerLocationData.street := CustomerLocationData.street DemoExtra.home;
           CustomerLocationData.building := CustomerLocationData.building DemoExtra.home;
           CustomerLocationData.apartment :=
             Some (default "" (CustomerLocationData.apartment DemoExtra.home)) |} ∅.
Proof.
  assert (view (demoRun DemoExtra.toLocationHome)
          = LocationView customer_location DemoExtra.home ∅) as Hview
    by (vm_compute; reflexivity).
  assert (isMobileView (demoRun DemoExtra.toLocationHome) = false) as Hdesktop
    by (vm_compute; reflexivity).
  assert (customerLocationSchema DemoExtra.home = []) as Hvalid
    by (vm_compute; reflexivity).
  pose proof (@location_next_then_back Demo.platform DemoExtra.toLocationHome
                "30-min" false Demo.ctx 0%Z customer_location DemoExtra.home ∅
                Hview Hdesktop) as [Hcustomer _].
  split; [exact Hview|]. split; [exact Hdesktop|]. split; [exact Hvalid|].
  exact (Hcustomer eq_refl Hvalid).
Defined.

(** X11 on the mobile layout, with Back as the event. *)
Lemma mobile_dateTime_step_has_no_way_back_witness :
  view (demoRunMobile Demo.toDateTime) = DateTimeView ∧
  isMobileView (demoRunMobile Demo.toDateTime) = true ∧
  currentStep (@dispatch Demo.platform Back (demoRunMobile Demo.toDateTime))
    = currentStep (demoRunMobile Demo.toDateTime) ∧
  view (@dispatch Demo.platform Back (demoRunMobile Demo.toDateTime)) = DateTimeView.
Proof.
  assert (view (demoRunMobile Demo.toDateTime) = DateTimeView) as Hview
    by (vm_compute; reflexivity).
  assert (isMobileView (demoRunMobile Demo.toDateTime) = true) as Hmobile
    by (vm_compute; reflexivity).
  split; [exact Hview|]. split; [exact Hmobile|].
  exact (@mobile_dateTime_step_has_no_way_back Demo.platform
           (demoRunMobile Demo.toDateTime) Back Hview Hmobile).
Defined.

(** X12 with a submission outstanding when the next day is clicked. *)
Lemma day_click_hides_success_alert_witness :
  view (demoRun Demo.toSubmitting) = DateTimeView ∧
  (0 < outstanding (demoRun Demo.toSubmitting))%nat ∧
  MultiStepBooking.successAlertOpen
    (@dispatch Demo.platform (DayClick 86400000%Z) (demoRun Demo.toSubmitting)) = false ∧
  bookingResponse
    (@dispatch Demo.platform (BookingFulfilled Demo.result)
       (@dispatch Demo.platform (DayClick 86400000%Z) (demoRun Demo.toSubmitting)))
    = Some Demo.result ∧
  MultiStepBooking.successAlertOpen
    (@dispatch Demo.platform (BookingFulfilled Demo.result)
       (@dispatch Demo.platform (DayClick 86400000%Z) (demoRun Demo.toSubmitting)))
    = false.
Proof.
  assert (view (demoRun Demo.toSubmitting) = DateTimeView) as Hview
    by (vm_compute; reflexivity).
  assert (0 < outstanding (demoRun Demo.toSubmitting))%nat as Hout
    by (vm_compute; lia).
  pose proof (@day_click_hides_success_alert Demo.platform
                (demoRun Demo.toSubmitting) 86400000%Z Demo.result Hview)
    as [Hclosed Hlate].
  destruct (Hlate Hout) as (Hresult & _ & Hstill).
  split; [exact Hview|]. split; [exact Hout|]. split; [exact Hclosed|].
  split; [exact Hresult|exact Hstill].
Defined.

(** X14 with the slot of 10:00 chosen. *)
Lemma posted_request_matches_slots_query_witness :
  currentStep (demoRun Demo.toDateTime) = Step4 ∧
  Demo.slot10 ∈ @DateTimeSelection.shownSlots Demo.platform (demoRun Demo.toDateTime) ∧
  ∃ m,
    posted (@dispatch Demo.platform (SlotSelect Demo.slot10) (demoRun Demo.toDateTime))
      = posted (demoRun Demo.toDateTime) ++ [m] ∧
    MeetingData.start_time m = Slot.start_time Demo.slot10 ∧
    MeetingData.user_timezone_offset m
      = (@DateTimeSelection.requestKey Demo.platform (demoRun Demo.toDateTime)).2.
Proof.
  assert (currentStep (demoRun Demo.toDateTime) = Step4) as Hstep
    by (vm_compute; reflexivity).
  assert (Demo.slot10 ∈ @DateTimeSelection.shownSlots Demo.platform (demoRun Demo.toDateTime))
    as Hshown by (apply (bool_decide_unpack _); vm_compute; exact I).
  destruct (@posted_request_matches_slots_query Demo.platform Demo.toDateTime
              "30-min" false Demo.ctx 0%Z) as [Hchosen _].
  destruct (Hchosen Demo.slot10 Hstep Hshown)
    as (m & response & Hposted & _ & _ & _ & _ & Hstart & _ & _ & _ & Hoffset).
  split; [exact Hstep|]. split; [exact Hshown|].
  exists m. split; [exact Hposted|]. split; [exact Hstart|exact Hoffset].
Defined.

(** X17 with two requests that differ in the duration only. *)
Lemma selected_services_determine_selection_witness :
  MeetingData.selected_services
    (@MultiStepBooking.meetingData Demo.platform "30-min" Demo.amal
       DemoExtra.selectionAB DemoExtra.atHome DemoExtra.morning)
  = MeetingData.selected_services
      (@MultiStepBooking.meetingData Demo.platform "60-min" Demo.amal
         DemoExtra.selectionAB DemoExtra.atHome DemoExtra.morning) ∧
  DemoExtra.selectionAB = DemoExtra.selectionAB.
Proof.
  assert (MeetingData.selected_services
            (@MultiStepBooking.meetingData Demo.platform "30-min" Demo.amal
               DemoExtra.selectionAB DemoExtra.atHome DemoExtra.morning)
          = MeetingData.selected_services
              (@MultiStepBooking.meetingData Demo.platform "60-min" Demo.amal
                 DemoExtra.selectionAB DemoExtra.atHome DemoExtra.morning))
    as Hsame by reflexivity.
  split; [exact Hsame|].
  exact (@selected_services_determine_selection Demo.platform "30-min" "60-min"
           Demo.amal Demo.amal DemoExtra.selectionAB DemoExtra.selectionAB
           DemoExtra.atHome DemoExtra.atHome DemoExtra.morning DemoExtra.morning Hsame).
Defined.

(** X18 with two requests for the address in Doha that differ in the
    duration only. *)
Lemma request_determines_location_witness :
  locationShape DemoExtra.atHome ∧
  MeetingData.customer_location
    (@MultiStepBooking.meetingData Demo.platform "30-min" Demo.amal
       DemoExtra.selectionAB DemoExtra.atHome DemoExtra.morning)
  = MeetingData.customer_location
      (@MultiStepBooking.meetingData Demo.platform "60-min" Demo.amal
         DemoExtra.selectionAB DemoExtra.atHome DemoExtra.morning) ∧
  DemoExtra.atHome = DemoExtra.atHome.
Proof.
  assert (locationShape DemoExtra.atHome) as Hshape.
  { split; [reflexivity|]. exists DemoExtra.home. split; reflexivity. }
  assert (MeetingData.customer_location
            (@MultiStepBooking.meetingData Demo.platform "30-min" Demo.amal
               DemoExtra.selectionAB DemoExtra.atHome DemoExtra.morning)
          = MeetingData.customer_location
              (@MultiStepBooking.meetingData Demo.platform "60-min" Demo.amal
                 DemoExtra.selectionAB DemoExtra.atHome DemoExtra.morning))
    as Hsame by reflexivity.
  split; [exact Hshape|]. split; [exact Hsame|].
  exact (@request_determines_location Demo.platform "30-min" "60-min"
           Demo.amal Demo.amal DemoExtra.selectionAB DemoExtra.selectionAB
           DemoExtra.atHome DemoExtra.atHome DemoExtra.morning DemoExtra.morning
           Hshape Hshape eq_refl Hsame).
Defined.

(** X10 with [A] ticked on the Services step of the desktop layout: Next
    and then Back before the animation is over. *)
Lemma step_moves_with_the_component_on_screen_witness :
  Exit.exiting (demoExit Demo.toServicesA) = None ∧
  isMobileView (Exit.wizard (demoExit Demo.toServicesA)) = false ∧
  view (Exit.wizard (demoExit Demo.toServicesA)) = ServicesView ["A"] ∧
  currentStep
    (Exit.wizard
       (@Exit.step Demo.platform (Exit.Happens ServicesNext)
          (demoExit Demo.toServicesA))) = Step3 ∧
  currentStep
    (Exit.wizard
       (@Exit.step Demo.platform (Exit.Happens Back)
          (@Exit.step Demo.platform (Exit.Happens ServicesNext)
             (demoExit Demo.toServicesA)))) = Step1.
Proof.
  assert (Exit.exiting (demoExit Demo.toServicesA) = None) as Hnone
    by (vm_compute; reflexivity).
  assert (isMobileView (Exit.wizard (demoExit Demo.toServicesA)) = false) as Hdesktop
    by (vm_compute; reflexivity).
  assert (view (Exit.wizard (demoExit Demo.toServicesA)) = ServicesView ["A"]) as Hview
    by (vm_compute; reflexivity).
  assert (["A"] ≠ @nil string) as Hsome by discriminate.
  destruct (@step_moves_with_the_component_on_screen Demo.platform
              (@Exit.waiting Demo.platform Demo.toServicesA) "30-min" false Demo.ctx 0%Z
              (Exit.Happens ServicesNext))
    as (_ & _ & _ & _ & _ & Hjump).
  destruct (Hjump ["A"] Hnone Hdesktop Hview Hsome) as (Hnext & Hback & _).
  split; [exact Hnone|]. split; [exact Hdesktop|]. split; [exact Hview|].
  split; [exact Hnext|exact Hback].
Defined.
